(** * Teaching notebooks of the ML-for-crystals course: a shallow embedding

    The repository consists of Jupyter notebooks.  The few cells that carry
    code of their own (the permeability notebook's [clean_df],
    [calculate_fingerprint], [get_MACCS] and fingerprint-stacking loop, the
    melting-point notebook's per-cluster selection loop, the space-group
    notebook's [CNN_classifier]) are embedded here as Rocq functions.

    Conventions.
    - A Python call that can raise is a function into [result]; [Raise e]
      is the exception, [Ok v] the returned value.
    - A one-dimensional float64 array is a [list Z]: the only values the
      embedded code ever stores are the floats 0.0, 1.0, ..., 9.0, which
      are represented by the integers 0, 1, ..., 9.  A two-dimensional array
      is the list of its rows.
    - Calls into third-party libraries whose result depends on chemistry, on
      a fitted estimator or on a random generator (RDKit's parser and
      fingerprints, the k-means labels, the shuffle of [train_test_split])
      are the methods of a class ([RDKit], [KMeans], [Shuffle]); what is
      assumed of them is a second class of propositions ([RDKitSizes],
      [KMeansLabels], [ShuffleSpec]) that the theorems take as a premise. *)

From Stdlib Require Import Ascii.
From stdpp Require Import base list gmap strings numbers.

Open Scope Z_scope.
Open Scope nat_scope.

(** ** Python exceptions and results *)

Inductive Exn : Type :=
  | IndexError      (* positional indexer out of bounds *)
  | ArgumentError   (* Boost.Python: argument types did not match the C++ signature *)
  | TypeError       (* builtins.TypeError: an argument of the wrong type *)
  | NameError       (* name is not defined *)
  | ValueError.

Inductive result (A : Type) : Type :=
  | Ok (a : A)
  | Raise (e : Exn).
Arguments Ok {A} a.
Arguments Raise {A} e.

#[global] Instance result_ret : MRet result := fun A a => Ok a.
#[global] Instance result_bind : MBind result := fun A B f r =>
  match r with
  | Ok a => f a
  | Raise e => Raise e
  end.

Definition raised {A} (r : result A) : bool :=
  match r with Ok _ => false | Raise _ => true end.

(** [for i in idx: st = body(st, i)], stopping at the first exception. *)
Fixpoint for_each {S : Type} (body : S -> nat -> result S) (st : S) (idx : list nat)
  : result S :=
  match idx with
  | [] => Ok st
  | i :: rest => st' ← body st i; for_each body st' rest
  end.

(** Python's [range(a, b)]. *)
Definition range (a b : nat) : list nat := seq a (b - a).

(** ** numpy arrays *)

Definition vector : Type := list Z.
Definition matrix : Type := list vector.

(** [np.zeros((n,))] *)
Definition np_zeros (n : nat) : vector := replicate n 0%Z.

(** [np.vstack([a, b])] on two-dimensional operands: the rows of [a] followed
    by the rows of [b]; all rows must have one width. *)
Definition same_width (rows : matrix) : bool :=
  match rows with
  | [] => true
  | r :: rest => forallb (fun r' => length r' =? length r) rest
  end.

Definition np_vstack (a b : matrix) : result matrix :=
  if same_width (a ++ b) then Ok (a ++ b) else Raise ValueError.

(** Python's [float(c)] on a one-character string, as [np.fromiter(s, float)]
    applies it to every character of [s]. *)
Definition float_of_char (c : ascii) : result Z :=
  let n := nat_of_ascii c in
  if (48 <=? n) && (n <=? 57) then Ok (Z.of_nat (n - 48)) else Raise ValueError.

Fixpoint np_fromiter_float (s : string) : result vector :=
  match s with
  | EmptyString => Ok []
  | String c rest =>
      x ← float_of_char c; xs ← np_fromiter_float rest; Ok (x :: xs)
  end.

(** ** RDKit bit vectors *)

Definition ExplicitBitVect : Type := list bool.

Definition bit_value (b : bool) : Z := if b then 1%Z else 0%Z.
Definition bit_char (b : bool) : ascii := if b then "1"%char else "0"%char.

(** [DataStructs.ConvertToNumpyArray(bv, arr)]: [arr] is resized to the number
    of bits and overwritten with them. *)
Definition ConvertToNumpyArray (bv : ExplicitBitVect) (arr : vector) : vector :=
  bit_value <$> bv.

(** [bv.ToBitString()] *)
Fixpoint ToBitString (bv : ExplicitBitVect) : string :=
  match bv with
  | [] => EmptyString
  | b :: rest => String (bit_char b) (ToBitString rest)
  end.

Definition binary (x : Z) : Prop := x = 0%Z \/ x = 1%Z.

(** ** RDKit, as far as the notebook calls it *)

Class RDKit : Type := {
  Mol : Type;
  (** [Chem.MolFromSmiles] on a string: a mol object, or Python's [None]
      when the string does not parse. *)
  MolFromSmiles : string -> option Mol;
  (** [Chem.RDKFingerprint(mol, minSize=k)] on a mol object. *)
  RDKFingerprint : Mol -> nat -> ExplicitBitVect;
  (** [MACCSkeys.GenMACCSKeys(mol)] on a mol object. *)
  GenMACCSKeys : Mol -> ExplicitBitVect
}.

(** The sizes RDKit documents: [fpSize=2048] by default (the notebook's own
    comment lists it), and 167 MACCS key bits. *)
Class RDKitSizes (R : RDKit) : Prop := {
  RDKFingerprint_fpSize : forall m : Mol, length (RDKFingerprint m 128) = 2048;
  GenMACCSKeys_size : forall m : Mol, length (GenMACCSKeys m) = 167
}.

Section Fingerprints.
Context {R : RDKit}.

(** [Chem.MolFromSmiles] rejects a missing cell (pandas stores it as the
    float NaN) where a string is expected with the builtin [TypeError]; the
    wrapped C++ fingerprint functions reject [None] where a mol is expected
    with Boost.Python's [ArgumentError]. *)
Definition Chem_MolFromSmiles (cell : option string) : result (option Mol) :=
  match cell with
  | Some s => Ok (MolFromSmiles s)
  | None => Raise TypeError
  end.

Definition Chem_RDKFingerprint (mol : option Mol) (minSize : nat)
  : result ExplicitBitVect :=
  match mol with
  | Some m => Ok (RDKFingerprint m minSize)
  | None => Raise ArgumentError
  end.

Definition MACCSkeys_GenMACCSKeys (mol : option Mol) : result ExplicitBitVect :=
  match mol with
  | Some m => Ok (GenMACCSKeys m)
  | None => Raise ArgumentError
  end.

(** [def calculate_fingerprint(mol)]: the fingerprint array is appended to
    the list [fps], and the list is what is returned. *)
Definition calculate_fingerprint (mol : option Mol) : result (list vector) :=
  let fps : list vector := [] in
  let arr := np_zeros 1 in
  fp_temp ← Chem_RDKFingerprint mol 128;
  let arr := ConvertToNumpyArray fp_temp arr in
  let fps := fps ++ [arr] in
  Ok fps.

(** [def get_MACCS(mol)] *)
Definition get_MACCS (mol : option Mol) : result vector :=
  fp ← MACCSkeys_GenMACCSKeys mol;
  let fp := ToBitString fp in
  np_fromiter_float fp.

End Fingerprints.

(** ** The permeability notebook: dataframes *)

(** A decimal number as it is written in the spreadsheet or in the code
    ([1e-06], [0.9]): [mantissa * 10 ^ exponent]. *)
Record decimal : Type := Dec { mantissa : Z; exponent : Z }.

(** A row of [Perm_Data.xlsx]; a missing entry (NaN) is [None]. *)
Record PermRow : Type := {
  Polymer : option string;
  SMILES : option string;
  He : option decimal;
  H2 : option decimal;
  CO2 : option decimal;
  O2 : option decimal;
  N2 : option decimal;
  CH4 : option decimal;
  Temperature : option decimal;
  Pressure : option decimal
}.

(** A row of a gas-specific dataframe: columns 0, 1 and 2. *)
Record GasRow : Type := {
  polymer : option string;
  smiles : option string;
  perm : option decimal
}.

Definition DataFrame : Type := list GasRow.

(** [data.loc[:, ["Polymer", "SMILES", gas]]] *)
Definition loc_gas (gas : PermRow -> option decimal) (data : list PermRow) : DataFrame :=
  (fun r => {| polymer := Polymer r; smiles := SMILES r; perm := gas r |}) <$> data.

(** [def clean_df(df)], as shipped: the two steps are comments only. *)
Definition clean_df (df : DataFrame) : DataFrame :=
  (* gets rid of NaN (not a number) entries in the dataframes *)
  (* Drop duplicate SMILES rows (repeated entries from separate papers) *)
  df.

(** The six dataframes after the split cell and the cleaning cell. *)
Record gas_frames : Type := {
  He_data : DataFrame;
  H2_data : DataFrame;
  CO2_data : DataFrame;
  O2_data : DataFrame;
  N2_data : DataFrame;
  CH4_data : DataFrame
}.

Definition split_cell (data : list PermRow) : gas_frames :=
  {| He_data := loc_gas He data;
     H2_data := loc_gas H2 data;
     CO2_data := loc_gas CO2 data;
     O2_data := loc_gas O2 data;
     N2_data := loc_gas N2 data;
     CH4_data := loc_gas CH4 data |}.

Definition clean_cell (g : gas_frames) : gas_frames :=
  {| He_data := clean_df (He_data g);
     H2_data := clean_df (H2_data g);
     CO2_data := clean_df (CO2_data g);
     O2_data := clean_df (O2_data g);
     N2_data := clean_df (N2_data g);
     CH4_data := clean_df (CH4_data g) |}.

(** A row has a missing element. *)
Definition has_nan (r : GasRow) : bool :=
  negb (bool_decide (is_Some (polymer r)) && bool_decide (is_Some (smiles r))
        && bool_decide (is_Some (perm r))).

(** Number of rows of [df] whose SMILES entry is the string [s]. *)
Definition count_smiles (s : string) (df : DataFrame) : nat :=
  length (filter (fun r => smiles r = Some s) df).

(** [df.iloc[i, 1]] *)
Definition iloc_1 (df : DataFrame) (i : nat) : result (option string) :=
  match df !! i with
  | Some r => Ok (smiles r)
  | None => Raise IndexError
  end.

(** [df['O2'].values]: column 2 of the gas-specific frame. *)
Definition column_values (df : DataFrame) : list (option decimal) := perm <$> df.

(** ** The permeability notebook: the fingerprint-stacking cell *)

Inductive printed : Type :=
  | PrintStr (s : string)
  | PrintInt (i : nat).

(** The names of the notebook namespace the cell reads or writes.  [fp_temp]
    is unbound in a fresh kernel. *)
Record namespace : Type := {
  fp : matrix;
  fp_temp : option matrix;
  stdout : list printed
}.

Section Stacking.
Context {R : RDKit}.

(** The statements of the [try] block for row [i]. *)
Definition try_block (ML_data : DataFrame) (i : nat) : result matrix :=
  cell ← iloc_1 ML_data i;
  mol_temp ← Chem_MolFromSmiles cell;
  calculate_fingerprint mol_temp.

(** One iteration of [for i in range(1, len(ML_data))]. *)
Definition stack_body (ML_data : DataFrame) (st : namespace) (i : nat)
  : result namespace :=
  let st :=
    match try_block ML_data i with
    | Ok t =>
        {| fp := fp st; fp_temp := Some t; stdout := stdout st |}
    | Raise _ => (* except: *)
        {| fp := fp st; fp_temp := fp_temp st;
           stdout := stdout st ++ [PrintStr "Error getting fingerprint"] |}
    end in
  match fp_temp st with
  | None => Raise NameError
  | Some t =>
      fp' ← np_vstack (fp st) t;
      Ok {| fp := fp'; fp_temp := fp_temp st; stdout := stdout st ++ [PrintInt i] |}
  end.

(** The whole cell, run in a namespace where [fp_temp] is bound to [pre]
    (or unbound) and [out] has been printed so far. *)
Definition stacking_cell (ML_data : DataFrame) (pre : option matrix)
    (out : list printed) : result namespace :=
  cell ← iloc_1 ML_data 0;
  mol_init ← Chem_MolFromSmiles cell;
  fp0 ← calculate_fingerprint mol_init;
  for_each (stack_body ML_data)
    {| fp := fp0; fp_temp := pre; stdout := out |}
    (range 1 (length ML_data)).

End Stacking.

(** A row whose SMILES entry is present and parses. *)
Definition valid_row `{RDKit} (r : GasRow) : Prop :=
  exists s m, smiles r = Some s /\ MolFromSmiles s = Some m.

(** ** Integer-array indexing *)

(** [a[idx]] (or [a[idx, :]]) with an array of non-negative row numbers:
    the rows in the order of [idx]; a row number past the end raises. *)
Fixpoint take_rows {A : Type} (a : list A) (idx : list nat) : result (list A) :=
  match idx with
  | [] => Ok []
  | j :: rest =>
      match a !! j with
      | Some x => xs ← take_rows a rest; Ok (x :: xs)
      | None => Raise IndexError
      end
  end.

(** [np.where(labels == i)[0]]: the positions holding [i], ascending;
    [where_eq_from k] numbers the positions from [k]. *)
Fixpoint where_eq_from (k : nat) (labels : list nat) (i : nat) : list nat :=
  match labels with
  | [] => []
  | l :: rest =>
      if l =? i then k :: where_eq_from (S k) rest i
      else where_eq_from (S k) rest i
  end.

Definition np_where_eq (labels : list nat) (i : nat) : list nat :=
  where_eq_from 0 labels i.

(** ** The melting-point notebook: per-cluster selection *)

Definition n_clusters : nat := 3.

(** The fitted estimator, as far as the notebook uses it:
    [kmeans.predict(X[:, [0,1]])] on the rows [X]. *)
Class KMeans (Features : Type) : Type := {
  predict : list Features -> list nat
}.

(** What scikit-learn documents of [predict]: one label per row, each the
    index of one of the [n_clusters] centres. *)
Class KMeansLabels {Features : Type} (K : KMeans Features) : Prop := {
  predict_length : forall X, length (predict X) = length X;
  predict_range : forall X, Forall (fun l => l < n_clusters) (predict X)
}.

Section Clusters.
Context {Features Target : Type}.

(** The four dictionaries of the cell. *)
Record cluster_dicts : Type := {
  X_train_cluster : gmap nat (list Features);
  X_test_cluster : gmap nat (list Features);
  y_train_cluster : gmap nat (list Target);
  y_test_cluster : gmap nat (list Target)
}.

Definition empty_dicts : cluster_dicts :=
  {| X_train_cluster := ∅; X_test_cluster := ∅;
     y_train_cluster := ∅; y_test_cluster := ∅ |}.

Variables (X_train X_test : list Features) (y_train y_test : list Target).
Variables (train_cluster_labels test_cluster_labels : list nat).

(** One iteration of [for i in range(n_clusters)]. *)
Definition cluster_body (d : cluster_dicts) (i : nat) : result cluster_dicts :=
  let idx_train := np_where_eq train_cluster_labels i in
  let idx_test := np_where_eq test_cluster_labels i in
  xtr ← take_rows X_train idx_train;
  let d := {| X_train_cluster := <[i := xtr]> (X_train_cluster d);
              X_test_cluster := X_test_cluster d;
              y_train_cluster := y_train_cluster d;
              y_test_cluster := y_test_cluster d |} in
  xte ← take_rows X_test idx_test;
  let d := {| X_train_cluster := X_train_cluster d;
              X_test_cluster := <[i := xte]> (X_test_cluster d);
              y_train_cluster := y_train_cluster d;
              y_test_cluster := y_test_cluster d |} in
  ytr ← take_rows y_train idx_train;
  let d := {| X_train_cluster := X_train_cluster d;
              X_test_cluster := X_test_cluster d;
              y_train_cluster := <[i := ytr]> (y_train_cluster d);
              y_test_cluster := y_test_cluster d |} in
  yte ← take_rows y_test idx_test;
  Ok {| X_train_cluster := X_train_cluster d;
        X_test_cluster := X_test_cluster d;
        y_train_cluster := y_train_cluster d;
        y_test_cluster := <[i := yte]> (y_test_cluster d) |}.

Definition cluster_loop : result cluster_dicts :=
  for_each cluster_body empty_dicts (range 0 n_clusters).

End Clusters.

(** The label cell followed by the selection cell. *)
Definition cluster_cells {Features Target : Type} `{KMeans Features}
    (X_train X_test : list Features) (y_train y_test : list Target)
  : result (@cluster_dicts Features Target) :=
  let train_cluster_labels := predict X_train in
  let test_cluster_labels := predict X_test in
  cluster_loop X_train X_test y_train y_test train_cluster_labels test_cluster_labels.

(** Number of rows stored under key [i] (0 when the key is absent). *)
Definition rows_in {A : Type} (d : gmap nat (list A)) (i : nat) : nat :=
  match d !! i with
  | Some rows => length rows
  | None => 0
  end.

(** ** The space-group notebook: the Keras model *)

Inductive activation : Type := relu | softmax.
Inductive padding : Type := same | valid.

(** Initial weights handed to a layer's constructor: a list of arrays. *)
Definition initial_weights : Type := list (list decimal).

Inductive Layer : Type :=
  | Input (shape : list nat)
  | BatchNormalization (epsilon momentum : decimal) (weights : option initial_weights)
  | Conv1D (filters kernel_size : nat) (act : activation) (pad : padding)
      (kernel_regularizer_l2 : decimal)
  | MaxPooling1D (pool_size : nat)
  | Dropout (rate : decimal)
  | Flatten
  | Dense (units : nat) (act : activation) (kernel_regularizer_l2 : decimal).

(** A [Sequential] model is its stack of layers; [model.add] appends. *)
Definition Sequential : Type := list Layer.
Definition model_add (model : Sequential) (l : Layer) : Sequential := model ++ [l].

Definition input_shape : list nat := [209; 1].
Definition l2_lambda : decimal := Dec 1 (-5).
Definition num_classes : nat := 8.

(** The installed Keras.  Keras 2 (TensorFlow up to 2.15) takes the keyword
    argument [weights] of a layer's constructor; Keras 3 rejects it, whatever
    its value, as an unrecognized keyword argument. *)
Inductive KerasVersion : Type := Keras2 | Keras3.

(** The constructor call
    [BatchNormalization(epsilon=..., momentum=..., weights=...)]. *)
Definition new_BatchNormalization (keras : KerasVersion) (epsilon momentum : decimal)
    (weights : option initial_weights) : result Layer :=
  match keras with
  | Keras2 => Ok (BatchNormalization epsilon momentum weights)
  | Keras3 => Raise ValueError
  end.

(** [def CNN_classifier(input_shape=input_shape, num_classes=num_classes)],
    as shipped: after the two given layers the body holds only the comment
    [# Add the rest of the layers] and [return model]. *)
Definition CNN_classifier (keras : KerasVersion) (input_shape : list nat)
    (num_classes : nat) : result Sequential :=
  let model : Sequential := [] in
  let model := model_add model (Input input_shape) in
  layer ← new_BatchNormalization keras (Dec 1 (-6)) (Dec 9 (-1)) None;
  let model := model_add model layer in
  (* Add the rest of the layers *)
  Ok model.

(** Layers 3 to 13 as the notebook's instruction cell lists them
    ([MaxPooling1D] with its default [pool_size=2]). *)
Definition instructed_layers (num_classes : nat) : list Layer :=
  [ Conv1D 256 32 relu same l2_lambda;
    BatchNormalization (Dec 1 (-6)) (Dec 9 (-1)) None;
    Conv1D 64 32 relu same l2_lambda;
    BatchNormalization (Dec 1 (-6)) (Dec 9 (-1)) None;
    MaxPooling1D 2;
    Dropout (Dec 5 (-1));
    Flatten;
    Dense 128 relu l2_lambda;
    BatchNormalization (Dec 1 (-6)) (Dec 9 (-1)) None;
    Dropout (Dec 5 (-1));
    Dense num_classes softmax l2_lambda ].

(** The architecture of the instruction cell: the two given layers and
    layers 3 to 13. *)
Definition instructed_architecture : Sequential :=
  [ Input input_shape; BatchNormalization (Dec 1 (-6)) (Dec 9 (-1)) None ]
  ++ instructed_layers num_classes.

(** Keras shape inference, per sample (without the batch axis). *)
Definition layer_output_shape (l : Layer) (s : list nat) : option (list nat) :=
  match l, s with
  | Input shape, _ => Some shape
  | BatchNormalization _ _ _, _ => Some s
  | Dropout _, _ => Some s
  | Conv1D filters k _ same _, [steps; _] => Some [steps; filters]
  | Conv1D filters k _ valid _, [steps; _] =>
      if k <=? steps then Some [steps - k + 1; filters] else None
  | MaxPooling1D p, [steps; channels] =>
      if (0 <? p) && (p <=? steps) then Some [steps / p; channels] else None
  | Flatten, _ => Some [foldr Nat.mul 1 s]
  | Dense units _ _, _ :: _ => Some (removelast s ++ [units])
  | _, _ => None
  end.

Fixpoint shape_through (model : Sequential) (s : list nat) : option (list nat) :=
  match model with
  | [] => Some s
  | l :: rest =>
      match layer_output_shape l s with
      | Some s' => shape_through rest s'
      | None => None
      end
  end.

Definition output_shape (model : Sequential) : option (list nat) :=
  shape_through model [].

(** The layer that produces the model's output. *)
Definition output_layer (model : Sequential) : option Layer := head (reverse model).

(** What the fixed architecture amounts to: the instructed stack of
    layers, ending in a softmax layer over [num_classes] outputs. *)
Definition is_literature_cnn (model : Sequential) : Prop :=
  model = instructed_architecture
  /\ output_shape model = Some [num_classes]
  /\ output_layer model = Some (Dense num_classes softmax l2_lambda).

(** The call constructs the fixed architecture: it returns a model, and the
    model is the literature stack. *)
Definition constructs_literature_cnn (call : result Sequential) : Prop :=
  exists model, call = Ok model /\ is_literature_cnn model.

(** ** Train/test splitting *)

(** [RandomState(seed).permutation(n)], the shuffle behind
    [train_test_split]. *)
Class Shuffle : Type := {
  permutation : Z -> nat -> list nat
}.

Class ShuffleSpec (S : Shuffle) : Prop := {
  permutation_perm : forall seed n, permutation seed n ≡ₚ seq 0 n
}.

(** [floor(0.8 * n)] *)
Definition n_train_of (n_samples : nat) : nat := (8 * n_samples) / 10.

(** Modelled from the spec: [sklearn.model_selection.train_test_split] is
    third-party code that the repository only calls (with two arrays,
    [train_size=0.8] and an integer [random_state]); it is absent from the
    sources.  The model follows the notebooks' words (a shuffled split, the
    stated share for training, the remainder for testing, the same split
    for both arrays) together with scikit-learn's documented behaviour:
    arrays of different lengths are rejected, the training share is rounded
    down, an empty training set is rejected, and the test rows are the
    first rows of the shuffle. *)
Definition train_test_split {A B : Type} `{Shuffle} (X : list A) (y : list B)
    (random_state : Z) : result (list A * list A * list B * list B) :=
  if negb (length X =? length y) then Raise ValueError else
  let n_samples := length X in
  let n_train := n_train_of n_samples in
  let n_test := n_samples - n_train in
  if n_train =? 0 then Raise ValueError else
  let perm := permutation random_state n_samples in
  let ind_test := take n_test perm in
  let ind_train := take n_train (drop n_test perm) in
  X_train ← take_rows X ind_train;
  X_test ← take_rows X ind_test;
  y_train ← take_rows y ind_train;
  y_test ← take_rows y ind_test;
  Ok (X_train, X_test, y_train, y_test).

(** The rows of [a] at the positions [idx], [None] past the end. *)
Definition rows_at {A : Type} (a : list A) (idx : list nat) : list (option A) :=
  (fun j => a !! j) <$> idx.

(** ** Stand-ins for the library calls, to run the cells on concrete data *)

(** A mol is its SMILES string; a string starting with [?] does not parse;
    the fingerprints set as many leading bits as the string has characters. *)
Definition demo_MolFromSmiles (s : string) : option string :=
  match s with
  | String "?" _ => None
  | _ => Some s
  end.

#[global] Instance demo_rdkit : RDKit := {|
  Mol := string;
  MolFromSmiles := demo_MolFromSmiles;
  RDKFingerprint m _ := resize 2048 false (replicate (String.length m) true);
  GenMACCSKeys m := resize 167 false (replicate (String.length m) true)
|}.

(** Labels by the row's value modulo the number of clusters. *)
#[global] Instance demo_kmeans : KMeans nat := {|
  predict X := (fun x => x mod n_clusters) <$> X
|}.

(** The shuffle that reverses the rows. *)
#[global] Instance demo_shuffle : Shuffle := {|
  permutation _ n := reverse (seq 0 n)
|}.

Definition demo_row (name smi : string) : GasRow :=
  {| polymer := Some name; smiles := Some smi; perm := Some (Dec 12 (-1)) |}.

(** Four rows; the third has no SMILES entry, the fourth has one that does
    not parse. *)
Definition demo_frame : DataFrame :=
  [ demo_row "polyaniline" "c1ccccc1N";
    demo_row "polyethylene" "CC";
    {| polymer := Some "unknown"; smiles := None; perm := Some (Dec 3 0) |};
    demo_row "misspelt" "?C(C" ].

(** ** Readings of the specification used below *)

(** Row [i] of the frame exists, has a SMILES entry, and the entry parses. *)
Definition row_valid_at `{RDKit} (df : DataFrame) (i : nat) : Prop :=
  exists r, df !! i = Some r /\ valid_row r.

(** What iteration [i] of the stacking loop prints. *)
Definition loop_prints `{RDKit} (ML_data : DataFrame) (i : nat) : list printed :=
  (if raised (try_block ML_data i)
   then [PrintStr "Error getting fingerprint"] else [])
  ++ [PrintInt i].

(** "Failures are left to propagate": whenever the library calls for a row
    of the loop raise, the cell ends with that exception. *)
Definition exceptions_propagate `{RDKit} (ML_data : DataFrame)
    (pre : option matrix) (out : list printed) : Prop :=
  forall i e, 1 <= i < length ML_data ->
    try_block ML_data i = Raise e ->
    stacking_cell ML_data pre out = Raise e.

(** A fingerprint as [calculate_fingerprint] returns it: one row of 2048
    entries. *)
Definition one_fingerprint (t : matrix) : Prop :=
  length t = 1 /\ Forall (fun row => length row = 2048) t.

(** [xs] is the selection of the rows of [a] labelled [i]. *)
Definition selected {A : Type} (a : list A) (labels : list nat) (i : nat)
    (xs : list A) : Prop :=
  Some <$> xs = rows_at a (np_where_eq labels i)
  /\ length xs = length (np_where_eq labels i).

(** The selection by [labels] splits the rows of [X] and [y] among the
    keys [0 .. n_clusters - 1] of [dX] and [dy]. *)
Definition selection_partitions {A B : Type} (labels : list nat)
    (X : list A) (y : list B) (dX : gmap nat (list A)) (dy : gmap nat (list B))
  : Prop :=
  (forall r, r < length X ->
     exists i, i < n_clusters /\ r ∈ np_where_eq labels i
               /\ forall j, r ∈ np_where_eq labels j -> j = i)
  /\ (forall i, i < n_clusters ->
        exists xs ys, dX !! i = Some xs /\ dy !! i = Some ys
                      /\ Some <$> xs = rows_at X (np_where_eq labels i)
                      /\ Some <$> ys = rows_at y (np_where_eq labels i)
                      /\ length xs = length ys)
  /\ sum_list (rows_in dX <$> seq 0 n_clusters) = length X
  /\ sum_list (rows_in dy <$> seq 0 n_clusters) = length X.

(** ** The permeability notebook: from the fingerprints to the split *)

(** [train_test_split(fp, np.log10(perms), train_size=0.8, random_state=0)];
    [np_log10] is numpy's elementwise logarithm on one entry (NaN stays
    NaN; no entry raises). *)
Definition permeability_split_cell {Y : Type} `{Shuffle}
    (np_log10 : option decimal -> Y) (fp : matrix) (perms : list (option decimal))
  : result (matrix * matrix * list Y * list Y) :=
  train_test_split fp (np_log10 <$> perms) 0.

(** ** The melting-point notebook: split, clusters and errors *)

(** The rows of [X] whose label is [i], in their order. *)
Definition rows_labelled {A : Type} (i : nat) (X : list A) (labels : list nat)
  : list A :=
  (fun p => p.1) <$> filter (fun p => p.2 = i) (zip X labels).

(** [train_test_split(X, y, train_size=0.8, random_state=42)], the cell that
    fits k-means on the training rows (scikit-learn rejects fewer samples
    than clusters; the fitted estimator is the [KMeans] instance), the label
    cell and the selection loop. *)
Definition melting_cells {Features Target : Type} `{Shuffle} `{KMeans Features}
    (X : list Features) (y : list Target)
  : result (@cluster_dicts Features Target) :=
  split ← train_test_split X y 42;
  let '(X_train, X_test, y_train, y_test) := split in
  if length X_train <? n_clusters then Raise ValueError else
  cluster_cells X_train X_test y_train y_test.

(** Outcomes of the cells that index dictionaries: [d[k]] on a missing key
    raises [KeyError(k)]. *)
Inductive outcome (A : Type) : Type :=
  | Done (a : A)
  | KeyError (key : nat)
  | Failed (e : Exn).
Arguments Done {A} a.
Arguments KeyError {A} key.
Arguments Failed {A} e.

(** [d[k]] *)
Definition dict_get {A : Type} (d : gmap nat A) (k : nat) : outcome A :=
  match d !! k with
  | Some v => Done v
  | None => KeyError k
  end.

Section Errors.
Context {Target : Type}.

(** Subtraction of two floats. *)
Variable sub : Target -> Target -> Target.

(** [a - b] on one-dimensional arrays: elementwise on equal lengths, an
    operand of length 1 is broadcast, other shapes do not fit. *)
Definition np_subtract (a b : list Target) : result (list Target) :=
  if length a =? length b then Ok (zip_with sub a b)
  else match a, b with
       | _, [y] => Ok ((fun x => sub x y) <$> a)
       | [x], _ => Ok (sub x <$> b)
       | _, _ => Raise ValueError
       end.

(** One iteration of [for i in range(n_clusters)]:
    [errors_test.extend(y_test_cluster[i] - y_pred_test_cluster[i])]. *)
Definition errors_body (y_test_cluster y_pred_test_cluster : gmap nat (list Target))
    (errors_test : list Target) (i : nat) : outcome (list Target) :=
  match dict_get y_test_cluster i with
  | Done y_true =>
      match dict_get y_pred_test_cluster i with
      | Done y_pred =>
          match np_subtract y_true y_pred with
          | Ok errors => Done (errors_test ++ errors)
          | Raise e => Failed e
          end
      | KeyError k => KeyError k
      | Failed e => Failed e
      end
  | KeyError k => KeyError k
  | Failed e => Failed e
  end.

Fixpoint errors_loop (y_test_cluster y_pred_test_cluster : gmap nat (list Target))
    (errors_test : list Target) (idx : list nat) : outcome (list Target) :=
  match idx with
  | [] => Done errors_test
  | i :: rest =>
      match errors_body y_test_cluster y_pred_test_cluster errors_test i with
      | Done errors_test => errors_loop y_test_cluster y_pred_test_cluster errors_test rest
      | KeyError k => KeyError k
      | Failed e => Failed e
      end
  end.

(** [errors_test = []] and the loop. *)
Definition errors_cell (y_test_cluster y_pred_test_cluster : gmap nat (list Target))
  : outcome (list Target) :=
  errors_loop y_test_cluster y_pred_test_cluster [] (range 0 n_clusters).

End Errors.

(** The dictionary [d] holds, under the keys 0, 1 and 2 and no other, the
    selections of the rows of [a] labelled 0, 1 and 2. *)
Definition three_selected {A : Type} (a : list A) (labels : list nat)
    (d : gmap nat (list A)) : Prop :=
  exists x0 x1 x2,
    d = <[2 := x2]> (<[1 := x1]> (<[0 := x0]> ∅))
    /\ selected a labels 0 x0 /\ selected a labels 1 x1 /\ selected a labels 2 x2.

(** * Theorems *)

(** ** Results and loops *)

Lemma bind_Ok {A B : Type} (r : result A) (f : A -> result B) (a : A) :
  r = Ok a -> (r ≫= f) = f a.
Proof. by intros ->. Qed.

Lemma bind_Raise {A B : Type} (r : result A) (f : A -> result B) (e : Exn) :
  r = Raise e -> (r ≫= f) = Raise e.
Proof. by intros ->. Qed.

Lemma range_cons (a b : nat) : a < b -> range a b = a :: range (S a) b.
Proof.
  intros Hab. unfold range.
  replace (b - a) with (S (b - S a)) by lia. reflexivity.
Qed.

Lemma range_length (a b : nat) : length (range a b) = b - a.
Proof. unfold range. apply length_seq. Qed.

(** ** The cleaning helper *)

(** C8. As shipped, [clean_df] returns its argument unchanged: the six
    gas-specific dataframes are the same after the cleaning cell as before
    it, every row with a missing element is still there, and so is every
    repeated SMILES entry. *)
Theorem clean_df_identity :
  forall (data : list PermRow) (df : DataFrame) (s : string),
    clean_df df = df
    /\ clean_cell (split_cell data) = split_cell data
    /\ filter (fun r => has_nan r = true) (clean_df df)
       = filter (fun r => has_nan r = true) df
    /\ count_smiles s (clean_df df) = count_smiles s df.
Proof.
  intros data df s. repeat split.
Qed.

(** ** The Keras model *)

(** C4 fails as stated: whichever Keras is installed, the shipped
    [CNN_classifier()] does not construct the stack of layers of the
    instruction cell. *)
Lemma CNN_classifier_not_literature :
  ~ constructs_literature_cnn (CNN_classifier Keras2 input_shape num_classes)
  /\ ~ constructs_literature_cnn (CNN_classifier Keras3 input_shape num_classes).
Proof.
  split.
  - intros (model & [= <-] & Hlayers & _ & _).
    apply (f_equal length) in Hlayers. vm_compute in Hlayers.
    discriminate Hlayers.
  - intros (model & Hcall & _). discriminate Hcall.
Qed.

(** The predicate is not an empty one: the stack of the instruction cell
    satisfies it. *)
Lemma instructed_architecture_is_literature :
  is_literature_cnn instructed_architecture.
Proof. by repeat split. Qed.

(** C4, amended.  As shipped, [CNN_classifier()] adds the two given layers
    only, the input of shape (209, 1) and a batch normalization (epsilon
    1e-06, momentum 0.9, weights=None); layers 3 to 13 are left to the
    student.  Under Keras 2, which takes the [weights] argument, the call
    returns this two-layer Sequential model, whose output keeps the shape
    (209, 1); under Keras 3 the given [BatchNormalization] call rejects the
    [weights] argument and [CNN_classifier()] raises [ValueError]. *)
Theorem CNN_classifier_as_shipped :
  let shipped := [ Input [209; 1];
                   BatchNormalization (Dec 1 (-6)) (Dec 9 (-1)) None ] in
  CNN_classifier Keras2 input_shape num_classes = Ok shipped
  /\ output_shape shipped = Some [209; 1]
  /\ CNN_classifier Keras3 input_shape num_classes = Raise ValueError.
Proof.
  cbv zeta. split; [reflexivity|]. split; reflexivity.
Qed.

(** ** Fingerprint helpers *)

Lemma bit_value_binary (b : bool) : binary (bit_value b).
Proof. destruct b; [right|left]; reflexivity. Qed.

Lemma ConvertToNumpyArray_length (bv : ExplicitBitVect) (arr : vector) :
  length (ConvertToNumpyArray bv arr) = length bv.
Proof. unfold ConvertToNumpyArray. apply length_fmap. Qed.

Lemma ConvertToNumpyArray_binary (bv : ExplicitBitVect) (arr : vector) :
  Forall binary (ConvertToNumpyArray bv arr).
Proof.
  unfold ConvertToNumpyArray. apply Forall_fmap, Forall_true.
  intros b. apply bit_value_binary.
Qed.

Lemma float_of_bit_char (b : bool) : float_of_char (bit_char b) = Ok (bit_value b).
Proof. by destruct b. Qed.

(** Reading a bit string back with [float] never raises and gives the bits. *)
Lemma fromiter_ToBitString (bv : ExplicitBitVect) :
  np_fromiter_float (ToBitString bv) = Ok (bit_value <$> bv).
Proof.
  induction bv as [|b bv IH]; [reflexivity|].
  cbn [ToBitString np_fromiter_float].
  rewrite float_of_bit_char. cbn. rewrite IH. reflexivity.
Qed.

Lemma calculate_fingerprint_Some `{RDKit} (m : Mol) :
  calculate_fingerprint (Some m)
  = Ok [ConvertToNumpyArray (RDKFingerprint m 128) (np_zeros 1)].
Proof. reflexivity. Qed.

Lemma calculate_fingerprint_None `{RDKit} :
  calculate_fingerprint None = Raise ArgumentError.
Proof. reflexivity. Qed.

Lemma calculate_fingerprint_shape `{RDKitSizes} (mol : option Mol) (t : matrix) :
  calculate_fingerprint mol = Ok t -> one_fingerprint t.
Proof.
  destruct mol as [m|]; [|discriminate].
  rewrite calculate_fingerprint_Some. intros [= <-]. split; [reflexivity|].
  constructor; [|constructor].
  rewrite ConvertToNumpyArray_length. apply RDKFingerprint_fpSize.
Qed.

(** C2 fails as stated for [calculate_fingerprint]: what it returns has one
    entry (the list [fps] holding the fingerprint array), not 2048. *)
Lemma calculate_fingerprint_returns_list :
  exists fps, calculate_fingerprint (R := demo_rdkit) (Some "CC"%string) = Ok fps
              /\ length fps = 1 /\ length fps <> 2048.
Proof.
  eexists. split; [reflexivity|]. split; [reflexivity|]. cbn. lia.
Qed.

(** C2, amended.  For every mol object, [calculate_fingerprint(mol)] returns
    a one-element list whose element is a vector of exactly 2048 entries, each
    0 or 1, and [get_MACCS(mol)] returns a vector of exactly 167 entries,
    each 0.0 or 1.0. *)
Theorem fingerprint_helpers_fixed_length (R : RDKit) (Hsizes : RDKitSizes R) :
  forall m : Mol,
    (exists v, calculate_fingerprint (Some m) = Ok [v]
               /\ length v = 2048 /\ Forall binary v)
    /\ (exists v, get_MACCS (Some m) = Ok v
                  /\ length v = 167 /\ Forall binary v).
Proof.
  intros m. split.
  - eexists. split; [apply calculate_fingerprint_Some|]. split.
    + rewrite ConvertToNumpyArray_length. apply RDKFingerprint_fpSize.
    + apply ConvertToNumpyArray_binary.
  - exists (bit_value <$> GenMACCSKeys m). split; [|split].
    + unfold get_MACCS. cbn. apply fromiter_ToBitString.
    + rewrite length_fmap. apply GenMACCSKeys_size.
    + apply Forall_fmap, Forall_true. intros b. apply bit_value_binary.
Qed.

Lemma demo_rdkit_sizes : RDKitSizes demo_rdkit.
Proof. split; intros m; apply length_resize. Defined.

Lemma fingerprint_helpers_fixed_length_witness :
  (exists v, calculate_fingerprint (R := demo_rdkit) (Some "CC"%string) = Ok [v]
             /\ length v = 2048 /\ Forall binary v)
  /\ (exists v, get_MACCS (R := demo_rdkit) (Some "CC"%string) = Ok v
                /\ length v = 167 /\ Forall binary v).
Proof.
  apply (fingerprint_helpers_fixed_length demo_rdkit).
  split; intros m; apply length_resize.
Defined.

(** ** The fingerprint-stacking cell *)

Lemma same_width_Forall (w : nat) (rows : matrix) :
  Forall (fun row => length row = w) rows -> same_width rows = true.
Proof.
  destruct rows as [|r rest]; [reflexivity|].
  intros Hall. inversion Hall as [|? ? Hr Hrest]; subst. cbn.
  apply forallb_forall. intros r' Hin.
  rewrite Forall_forall in Hrest. apply Nat.eqb_eq. by apply Hrest.
Qed.

Lemma np_vstack_ok (w : nat) (a b : matrix) :
  Forall (fun row => length row = w) a ->
  Forall (fun row => length row = w) b ->
  np_vstack a b = Ok (a ++ b).
Proof.
  intros Ha Hb. unfold np_vstack.
  rewrite (same_width_Forall w); [reflexivity|]. by apply Forall_app.
Qed.

Section StackingProofs.
Context `{Hsizes : RDKitSizes}.

Lemma try_block_valid (ML_data : DataFrame) (i : nat) :
  row_valid_at ML_data i ->
  exists t, try_block ML_data i = Ok t /\ one_fingerprint t.
Proof.
  intros (r & Hr & s & m & Hs & Hm).
  unfold try_block, iloc_1. rewrite Hr. cbn. rewrite Hs. cbn. rewrite Hm.
  eexists. split; [apply calculate_fingerprint_Some|].
  eapply calculate_fingerprint_shape, calculate_fingerprint_Some.
Qed.

Lemma try_block_shape (ML_data : DataFrame) (i : nat) (t : matrix) :
  try_block ML_data i = Ok t -> one_fingerprint t.
Proof.
  unfold try_block.
  destruct (iloc_1 ML_data i) as [cell|]; [cbn|discriminate].
  destruct (Chem_MolFromSmiles cell) as [mol|]; [cbn|discriminate].
  apply calculate_fingerprint_shape.
Qed.

(** One iteration, entered with stacked rows of width 2048 and with
    [fp_temp] either bound to a fingerprint or about to be bound by a row
    that does not raise: it stacks one more row and prints. *)
Lemma stack_body_ok (ML_data : DataFrame) (st : namespace) (i : nat) :
  Forall (fun row => length row = 2048) (fp st) ->
  (exists t, fp_temp st = Some t /\ one_fingerprint t)
    \/ raised (try_block ML_data i) = false ->
  exists st', stack_body ML_data st i = Ok st'
    /\ length (fp st') = S (length (fp st))
    /\ Forall (fun row => length row = 2048) (fp st')
    /\ (exists t, fp_temp st' = Some t /\ one_fingerprint t)
    /\ stdout st' = stdout st ++ loop_prints ML_data i.
Proof.
  intros Hfp Hbound. unfold stack_body, loop_prints.
  destruct (try_block ML_data i) as [t|e] eqn:Htry; cbn [raised fp_temp fp stdout].
  - pose proof (try_block_shape _ _ _ Htry) as [Hlen Hrows].
    rewrite (np_vstack_ok 2048) by assumption. cbn.
    eexists. split; [reflexivity|]. cbn.
    rewrite length_app, Hlen. repeat split.
    + lia.
    + by apply Forall_app.
    + exists t. by repeat split.
  - destruct Hbound as [(t & Ht & Hlen & Hrows)|?]; [|discriminate].
    rewrite Ht. rewrite (np_vstack_ok 2048) by assumption. cbn.
    eexists. split; [reflexivity|]. cbn.
    rewrite length_app, Hlen. repeat split.
    + lia.
    + by apply Forall_app.
    + exists t. by repeat split.
    + by rewrite <- app_assoc.
Qed.

(** The loop from a namespace where [fp_temp] is bound never raises,
    whatever the rows. *)
Lemma stack_loop_bound (ML_data : DataFrame) (idx : list nat) :
  forall st,
    Forall (fun row => length row = 2048) (fp st) ->
    (exists t, fp_temp st = Some t /\ one_fingerprint t) ->
    exists st', for_each (stack_body ML_data) st idx = Ok st'
      /\ length (fp st') = length (fp st) + length idx
      /\ Forall (fun row => length row = 2048) (fp st')
      /\ stdout st' = stdout st ++ flat_map (loop_prints ML_data) idx.
Proof.
  induction idx as [|i idx IH]; intros st Hfp Hbound.
  - exists st. cbn. rewrite app_nil_r. repeat split; [lia|assumption].
  - destruct (stack_body_ok ML_data st i Hfp (or_introl Hbound))
      as (st1 & Hstep & Hlen1 & Hfp1 & Hbound1 & Hout1).
    destruct (IH st1 Hfp1 Hbound1) as (st' & Hrest & Hlen' & Hfp' & Hout').
    exists st'. cbn [for_each]. rewrite Hstep. cbn. rewrite Hrest.
    repeat split; [|assumption|].
    + rewrite Hlen', Hlen1. cbn. lia.
    + rewrite Hout', Hout1. cbn [flat_map]. by rewrite <- app_assoc.
Qed.

(** The cell, when rows 0 and 1 do not raise: it ends normally with one
    stacked row per row of the frame, whatever the later rows do. *)
Lemma stacking_cell_runs (ML_data : DataFrame) (pre : option matrix)
    (out : list printed) :
  row_valid_at ML_data 0 ->
  (1 < length ML_data -> row_valid_at ML_data 1) ->
  exists st, stacking_cell ML_data pre out = Ok st
    /\ length (fp st) = length ML_data
    /\ Forall (fun row => length row = 2048) (fp st)
    /\ stdout st = out ++ flat_map (loop_prints ML_data) (range 1 (length ML_data)).
Proof.
  intros H0 H1.
  destruct (try_block_valid ML_data 0 H0) as (fp0 & Htry0 & Hlen0 & Hrows0).
  assert (Hcell : stacking_cell ML_data pre out
                  = for_each (stack_body ML_data)
                      {| fp := fp0; fp_temp := pre; stdout := out |}
                      (range 1 (length ML_data))).
  { unfold stacking_cell. unfold try_block in Htry0.
    destruct (iloc_1 ML_data 0) as [cell|]; [cbn in *|discriminate].
    destruct (Chem_MolFromSmiles cell) as [mol|]; [cbn in *|discriminate].
    by rewrite Htry0. }
  rewrite Hcell. clear Hcell.
  destruct H0 as (r0 & Hr0 & _).
  assert (Hpos : 0 < length ML_data) by (by eapply lookup_lt_Some).
  destruct (decide (1 < length ML_data)) as [Hlong|Hshort].
  - rewrite range_cons by assumption.
    destruct (try_block_valid ML_data 1 (H1 Hlong)) as (t1 & Htry1 & _).
    destruct (stack_body_ok ML_data
                {| fp := fp0; fp_temp := pre; stdout := out |} 1)
      as (st1 & Hstep & Hlen1 & Hfp1 & Hbound1 & Hout1);
      [assumption | right; by rewrite Htry1 |].
    destruct (stack_loop_bound ML_data (range 2 (length ML_data)) st1 Hfp1 Hbound1)
      as (st' & Hrest & Hlen' & Hfp' & Hout').
    exists st'. cbn [for_each]. rewrite Hstep. cbn. rewrite Hrest.
    repeat split; [|assumption|].
    + rewrite Hlen', Hlen1, range_length. cbn. lia.
    + rewrite Hout', Hout1. cbn [flat_map stdout]. by rewrite <- app_assoc.
  - replace (length ML_data) with 1 by lia. cbn.
    eexists. split; [reflexivity|]. cbn. rewrite app_nil_r.
    repeat split; [lia|assumption].
Qed.

End StackingProofs.

Lemma valid_rows_lookup `{RDKit} (df : DataFrame) (i : nat) :
  Forall valid_row df -> i < length df -> row_valid_at df i.
Proof.
  intros Hall Hi. destruct (lookup_lt_is_Some_2 df i Hi) as [r Hr].
  exists r. split; [assumption|]. by eapply Forall_lookup_1.
Qed.

(** C3. For a gas-specific dataframe with N >= 1 rows whose SMILES entries
    all parse, the stacking cell ends normally with an array [fp] of exactly
    N rows, each of length 2048, so [fp] has as many rows as the target
    vector [perms] taken from the same dataframe has entries. *)
Theorem stacked_fingerprints_match_perms (R : RDKit) (Hsizes : RDKitSizes R) :
  forall (ML_data : DataFrame) (pre : option matrix) (out : list printed),
    1 <= length ML_data ->
    Forall valid_row ML_data ->
    exists st, stacking_cell ML_data pre out = Ok st
      /\ length (fp st) = length ML_data
      /\ Forall (fun row => length row = 2048) (fp st)
      /\ length (fp st) = length (column_values ML_data).
Proof.
  intros ML_data pre out Hn Hvalid.
  destruct (stacking_cell_runs ML_data pre out) as (st & Hrun & Hlen & Hrows & _).
  - apply valid_rows_lookup; [assumption|lia].
  - intros Hlong. by apply valid_rows_lookup.
  - exists st. repeat split; try assumption.
    unfold column_values. by rewrite length_fmap.
Qed.

Lemma demo_row_valid (name smi : string) :
  demo_MolFromSmiles smi = Some smi -> valid_row (demo_row name smi).
Proof. intros Hparse. exists smi, smi. by split. Defined.

Lemma stacked_fingerprints_match_perms_witness :
  exists st, stacking_cell (take 2 demo_frame) None [] = Ok st
    /\ length (fp st) = 2
    /\ Forall (fun row => length row = 2048) (fp st)
    /\ length (fp st) = length (column_values (take 2 demo_frame)).
Proof.
  apply (stacked_fingerprints_match_perms demo_rdkit demo_rdkit_sizes
           (take 2 demo_frame) None []).
  - cbn. lia.
  - repeat constructor; by apply demo_row_valid.
Defined.

(** C1 fails as stated: in the demo frame the library calls raise for row 2
    (the SMILES entry is missing, [Chem.MolFromSmiles] raises [TypeError])
    and for row 3 (the entry does not parse, [calculate_fingerprint] raises
    [ArgumentError] on [None]), yet the cell ends normally, having printed
    the handler's message between the row numbers. *)
Lemma stacking_loop_swallows_exception :
  try_block demo_frame 2 = Raise TypeError
  /\ try_block demo_frame 3 = Raise ArgumentError
  /\ (exists st, stacking_cell demo_frame None [] = Ok st
        /\ stdout st = [PrintInt 1;
                        PrintStr "Error getting fingerprint"; PrintInt 2;
                        PrintStr "Error getting fingerprint"; PrintInt 3])
  /\ ~ exceptions_propagate demo_frame None [].
Proof.
  split; [reflexivity|]. split; [reflexivity|]. split.
  - eexists. split; [vm_compute; reflexivity|]. reflexivity.
  - intros Hprop.
    specialize (Hprop 2 TypeError).
    assert (Hraise : stacking_cell demo_frame None [] = Raise TypeError).
    { apply Hprop; [cbn; lia|reflexivity]. }
    apply (f_equal raised) in Hraise. vm_compute in Hraise. discriminate Hraise.
Qed.

Lemma stacking_cell_unfold `{RDKit} (ML_data : DataFrame) (pre : option matrix)
    (out : list printed) (fp0 : matrix) :
  try_block ML_data 0 = Ok fp0 ->
  stacking_cell ML_data pre out
  = for_each (stack_body ML_data)
      {| fp := fp0; fp_temp := pre; stdout := out |} (range 1 (length ML_data)).
Proof.
  intros Htry0. unfold stacking_cell. unfold try_block in Htry0.
  destruct (iloc_1 ML_data 0) as [cell|]; [cbn in *|discriminate].
  destruct (Chem_MolFromSmiles cell) as [mol|]; [cbn in *|discriminate].
  by rewrite Htry0.
Qed.

(** The [try] block raises the exceptions of its three calls only. *)
Lemma try_block_raises `{RDKit} (ML_data : DataFrame) (i : nat) (e : Exn) :
  try_block ML_data i = Raise e ->
  e = IndexError \/ e = TypeError \/ e = ArgumentError.
Proof.
  unfold try_block, iloc_1.
  destruct (ML_data !! i) as [r|]; cbn; [|intros [= <-]; by left].
  destruct (smiles r) as [s|]; cbn; [|intros [= <-]; right; by left].
  destruct (MolFromSmiles s) as [m|]; [by rewrite calculate_fingerprint_Some|].
  rewrite calculate_fingerprint_None. intros [= <-]. right; by right.
Qed.

(** What an iteration of the loop can raise comes from the stacking
    statement, never from the [try] block. *)
Lemma stack_body_raises `{RDKit} (ML_data : DataFrame) (st : namespace) (i : nat)
    (e : Exn) :
  stack_body ML_data st i = Raise e -> e = NameError \/ e = ValueError.
Proof.
  unfold stack_body.
  destruct (try_block ML_data i) as [t|e']; cbn [fp fp_temp stdout].
  - unfold np_vstack. destruct (same_width _); cbn; [discriminate|].
    intros [= <-]. by right.
  - destruct (fp_temp st) as [t|]; [|intros [= <-]; by left].
    unfold np_vstack. destruct (same_width _); cbn; [discriminate|].
    intros [= <-]. by right.
Qed.

Lemma stack_loop_raises `{RDKit} (ML_data : DataFrame) (idx : list nat) :
  forall (st : namespace) (e : Exn),
    for_each (stack_body ML_data) st idx = Raise e ->
    e = NameError \/ e = ValueError.
Proof.
  induction idx as [|i idx IH]; intros st e; cbn [for_each]; [discriminate|].
  destruct (stack_body ML_data st i) as [st'|e'] eqn:Hstep; cbn.
  - apply IH.
  - intros [= <-]. by eapply stack_body_raises.
Qed.

(** C1, amended.  Only row 0, which is handled before the loop and outside
    any handler, is left to propagate: an exception of its library calls ends
    the cell with that exception.  For the rows of the loop the bare [except]
    catches the exception of [Chem.MolFromSmiles] or [calculate_fingerprint]
    and prints "Error getting fingerprint": when row 0 does not raise, no
    exception of a loop row's library calls propagates out of the cell.  When
    moreover [fp_temp] is bound before any row can raise (row 1 does not
    raise, or [fp_temp] still holds a fingerprint from an earlier run of the
    cell), the loop goes on over every row and the cell ends normally, having
    printed for each loop row, in order, the message if its library calls
    raised and then the row number. *)
Theorem stacking_loop_catches (R : RDKit) (Hsizes : RDKitSizes R) :
  forall (ML_data : DataFrame) (pre : option matrix) (out : list printed),
    (forall e, try_block ML_data 0 = Raise e ->
               stacking_cell ML_data pre out = Raise e)
    /\ (row_valid_at ML_data 0 ->
        forall i e, 1 <= i ->
          try_block ML_data i = Raise e ->
          stacking_cell ML_data pre out <> Raise e)
    /\ (row_valid_at ML_data 0 ->
        (1 < length ML_data -> row_valid_at ML_data 1)
          \/ (exists t, pre = Some t /\ one_fingerprint t) ->
        exists st, stacking_cell ML_data pre out = Ok st
          /\ stdout st
             = out ++ flat_map (loop_prints ML_data) (range 1 (length ML_data))).
Proof.
  intros ML_data pre out. split; [|split].
  - intros e. unfold try_block, stacking_cell.
    destruct (iloc_1 ML_data 0) as [cell|e0]; cbn; [|by intros [= ->]].
    destruct (Chem_MolFromSmiles cell) as [mol|e1]; cbn; [|by intros [= ->]].
    by intros ->.
  - intros H0 i e Hi Htry Hcell.
    destruct (try_block_valid ML_data 0 H0) as (fp0 & Htry0 & _).
    rewrite (stacking_cell_unfold _ _ _ _ Htry0) in Hcell.
    apply stack_loop_raises in Hcell.
    apply try_block_raises in Htry.
    destruct Hcell as [->| ->]; destruct Htry as [?|[?|?]]; discriminate.
  - intros H0 [H1|(t & -> & Ht)].
    + destruct (stacking_cell_runs ML_data pre out H0 H1)
        as (st & Hrun & _ & _ & Hout).
      by exists st.
    + destruct (try_block_valid ML_data 0 H0) as (fp0 & Htry0 & _ & Hrows0).
      rewrite (stacking_cell_unfold _ _ _ _ Htry0).
      destruct (stack_loop_bound ML_data (range 1 (length ML_data))
                  {| fp := fp0; fp_temp := Some t; stdout := out |})
        as (st & Hrun & _ & _ & Hout); [assumption|by exists t|].
      by exists st.
Qed.

Lemma stacking_loop_catches_witness :
  stacking_cell (drop 2 demo_frame) None [] = Raise TypeError
  /\ stacking_cell demo_frame None [] <> Raise TypeError
  /\ exists st, stacking_cell demo_frame None [] = Ok st
       /\ stdout st = flat_map (loop_prints demo_frame) (range 1 (length demo_frame)).
Proof.
  split; [|split].
  - apply (stacking_loop_catches demo_rdkit demo_rdkit_sizes
             (drop 2 demo_frame) None []).
    reflexivity.
  - apply (stacking_loop_catches demo_rdkit demo_rdkit_sizes demo_frame None [])
      with (i := 2).
    + exists (demo_row "polyaniline" "c1ccccc1N"). split; [reflexivity|].
      by apply demo_row_valid.
    + lia.
    + reflexivity.
  - apply (stacking_loop_catches demo_rdkit demo_rdkit_sizes demo_frame None []).
    + exists (demo_row "polyaniline" "c1ccccc1N"). split; [reflexivity|].
      by apply demo_row_valid.
    + left. intros _. exists (demo_row "polyethylene" "CC"). split; [reflexivity|].
      by apply demo_row_valid.
Defined.

(** ** Integer-array indexing *)

Lemma take_rows_ok {A : Type} (a : list A) (idx : list nat) :
  Forall (fun j => j < length a) idx ->
  exists xs, take_rows a idx = Ok xs
             /\ length xs = length idx
             /\ Some <$> xs = rows_at a idx.
Proof.
  induction idx as [|j idx IH]; intros Hall.
  - exists []. by repeat split.
  - inversion Hall as [|? ? Hj Hrest]; subst.
    destruct (IH Hrest) as (xs & Hxs & Hlen & Hrows).
    destruct (lookup_lt_is_Some_2 a j Hj) as [x Hx].
    exists (x :: xs). cbn [take_rows]. rewrite Hx, Hxs. cbn.
    repeat split; [by rewrite Hlen|].
    unfold rows_at in *. cbn. by rewrite Hx, Hrows.
Qed.

Lemma elem_of_where_eq_from (labels : list nat) (i : nat) :
  forall k j, j ∈ where_eq_from k labels i <-> k <= j /\ labels !! (j - k) = Some i.
Proof.
  induction labels as [|l labels IH]; intros k j; cbn [where_eq_from].
  - split; [by intros ?%elem_of_nil|]. by intros [_ ?].
  - destruct (Nat.eqb_spec l i) as [->|Hne].
    + rewrite elem_of_cons, IH. split.
      * intros [->|[Hle Hlook]].
        -- split; [lia|]. by rewrite Nat.sub_diag.
        -- split; [lia|]. by replace (j - k) with (S (j - S k)) by lia.
      * intros [Hle Hlook]. destruct (decide (j = k)) as [->|Hjk]; [by left|].
        right. split; [lia|].
        by replace (j - k) with (S (j - S k)) in Hlook by lia.
    + rewrite IH. split.
      * intros [Hle Hlook]. split; [lia|].
        by replace (j - k) with (S (j - S k)) by lia.
      * intros [Hle Hlook]. destruct (decide (j = k)) as [->|Hjk].
        -- rewrite Nat.sub_diag in Hlook. cbn in Hlook. congruence.
        -- split; [lia|].
           by replace (j - k) with (S (j - S k)) in Hlook by lia.
Qed.

Lemma elem_of_np_where_eq (labels : list nat) (i j : nat) :
  j ∈ np_where_eq labels i <-> labels !! j = Some i.
Proof.
  unfold np_where_eq. rewrite elem_of_where_eq_from, Nat.sub_0_r.
  split; [by intros [_ ?]|]. intros ?. split; [lia|assumption].
Qed.

Lemma np_where_eq_in_range (labels : list nat) (i : nat) :
  Forall (fun j => j < length labels) (np_where_eq labels i).
Proof.
  apply Forall_forall. intros j Hj.
  apply list_elem_of_In, elem_of_np_where_eq in Hj. by eapply lookup_lt_Some.
Qed.

(** With three possible labels, the three selections together have as many
    positions as there are labels. *)
Lemma where_eq_from_total (labels : list nat) :
  Forall (fun l => l < n_clusters) labels ->
  forall k,
    length (where_eq_from k labels 0) + length (where_eq_from k labels 1)
    + length (where_eq_from k labels 2) = length labels.
Proof.
  induction 1 as [|l labels Hl _ IH]; intros k; [reflexivity|].
  unfold n_clusters in Hl. specialize (IH (S k)).
  destruct l as [|[|[|l]]]; [| | |lia]; cbn; lia.
Qed.

(** ** The per-cluster selection loop *)

Lemma take_rows_selected {A : Type} (a : list A) (labels : list nat) (i : nat) :
  length a = length labels ->
  exists xs, take_rows a (np_where_eq labels i) = Ok xs /\ selected a labels i xs.
Proof.
  intros Hlen.
  destruct (take_rows_ok a (np_where_eq labels i)) as (xs & Hxs & Hn & Hrows).
  - rewrite Hlen. apply np_where_eq_in_range.
  - exists xs. by repeat split.
Qed.

Section ClusterProofs.
Context {Features Target : Type}.
Variables (X_train X_test : list Features) (y_train y_test : list Target).
Variables (train_labels test_labels : list nat).
Hypothesis train_labels_length : length train_labels = length X_train.
Hypothesis test_labels_length : length test_labels = length X_test.
Hypothesis y_train_length : length y_train = length X_train.
Hypothesis y_test_length : length y_test = length X_test.

Lemma cluster_body_ok (d : cluster_dicts) (i : nat) :
  exists xtr xte ytr yte,
    selected X_train train_labels i xtr /\ selected X_test test_labels i xte
    /\ selected y_train train_labels i ytr /\ selected y_test test_labels i yte
    /\ cluster_body X_train X_test y_train y_test train_labels test_labels d i
       = Ok {| X_train_cluster := <[i := xtr]> (X_train_cluster d);
               X_test_cluster := <[i := xte]> (X_test_cluster d);
               y_train_cluster := <[i := ytr]> (y_train_cluster d);
               y_test_cluster := <[i := yte]> (y_test_cluster d) |}.
Proof.
  destruct (take_rows_selected X_train train_labels i) as (xtr & Hxtr & ?);
    [congruence|].
  destruct (take_rows_selected X_test test_labels i) as (xte & Hxte & ?);
    [congruence|].
  destruct (take_rows_selected y_train train_labels i) as (ytr & Hytr & ?);
    [congruence|].
  destruct (take_rows_selected y_test test_labels i) as (yte & Hyte & ?);
    [congruence|].
  exists xtr, xte, ytr, yte. repeat (split; [assumption|]).
  unfold cluster_body. rewrite Hxtr. cbn. rewrite Hxte. cbn.
  rewrite Hytr. cbn. rewrite Hyte. reflexivity.
Qed.

End ClusterProofs.

(** Three selections stored under the keys 0, 1, 2 form a partition. *)
Lemma three_keys_partition {A B : Type} (labels : list nat) (X : list A) (y : list B)
    (x0 x1 x2 : list A) (y0 y1 y2 : list B) :
  length labels = length X ->
  Forall (fun l => l < n_clusters) labels ->
  selected X labels 0 x0 -> selected X labels 1 x1 -> selected X labels 2 x2 ->
  selected y labels 0 y0 -> selected y labels 1 y1 -> selected y labels 2 y2 ->
  selection_partitions labels X y
    (<[2 := x2]> (<[1 := x1]> (<[0 := x0]> ∅)))
    (<[2 := y2]> (<[1 := y1]> (<[0 := y0]> ∅))).
Proof.
  intros Hlen Hrange [Hx0 Hnx0] [Hx1 Hnx1] [Hx2 Hnx2] [Hy0 Hny0] [Hy1 Hny1] [Hy2 Hny2].
  pose proof (where_eq_from_total labels Hrange 0) as Htotal.
  fold (np_where_eq labels 0) (np_where_eq labels 1) (np_where_eq labels 2) in Htotal.
  split; [|split; [|split]].
  - intros r Hr. rewrite <- Hlen in Hr.
    destruct (lookup_lt_is_Some_2 labels r Hr) as [i Hi].
    exists i. split; [|split].
    + eapply Forall_lookup_1 in Hrange; [|exact Hi]. exact Hrange.
    + by apply elem_of_np_where_eq.
    + intros j Hj%elem_of_np_where_eq. congruence.
  - intros i Hi. unfold n_clusters in Hi.
    destruct i as [|[|[|i]]]; [| | |lia].
    + exists x0, y0. by repeat split; [..|congruence].
    + exists x1, y1. by repeat split; [..|congruence].
    + exists x2, y2. by repeat split; [..|congruence].
  - cbn. unfold rows_in. simplify_map_eq. lia.
  - cbn. unfold rows_in. simplify_map_eq. lia.
Qed.

(** C5. For every training set (rows [X_train] paired with targets
    [y_train]), test set, and fitted k-means model with [n_clusters = 3], the
    selection loop ends normally and partitions the rows: every row number
    lies in the selection of exactly one cluster [i] in 0..2,
    [X_train_cluster[i]] and [y_train_cluster[i]] hold the rows selected for
    [i] and have equally many of them, and the cluster row counts sum to the
    number of rows of [X_train]; likewise for the test set. *)
Theorem cluster_selection_partitions {Features Target : Type}
    (K : KMeans Features) (HK : KMeansLabels K) :
  forall (X_train X_test : list Features) (y_train y_test : list Target),
    length y_train = length X_train ->
    length y_test = length X_test ->
    exists d, cluster_cells X_train X_test y_train y_test = Ok d
      /\ selection_partitions (predict X_train) X_train y_train
           (X_train_cluster d) (y_train_cluster d)
      /\ selection_partitions (predict X_test) X_test y_test
           (X_test_cluster d) (y_test_cluster d).
Proof.
  intros X_train X_test y_train y_test Hytr Hyte.
  unfold cluster_cells, cluster_loop.
  change (range 0 n_clusters) with [0; 1; 2].
  pose proof (predict_length X_train) as Hltr.
  pose proof (predict_length X_test) as Hlte.
  pose proof (cluster_body_ok X_train X_test y_train y_test
                (predict X_train) (predict X_test) Hltr Hlte Hytr Hyte) as Hbody.
  destruct (Hbody empty_dicts 0)
    as (xtr0 & xte0 & ytr0 & yte0 & ? & ? & ? & ? & Hstep0).
  cbn [for_each]. rewrite Hstep0. cbn [mbind result_bind].
  match goal with |- context [cluster_body _ _ _ _ _ _ ?d 1] =>
    destruct (Hbody d 1) as (xtr1 & xte1 & ytr1 & yte1 & ? & ? & ? & ? & Hstep1)
  end.
  rewrite Hstep1. cbn [mbind result_bind].
  match goal with |- context [cluster_body _ _ _ _ _ _ ?d 2] =>
    destruct (Hbody d 2) as (xtr2 & xte2 & ytr2 & yte2 & ? & ? & ? & ? & Hstep2)
  end.
  rewrite Hstep2. cbn [mbind result_bind].
  eexists. split; [reflexivity|]. cbn.
  split; apply three_keys_partition; try assumption; apply predict_range.
Qed.

Lemma demo_kmeans_labels : KMeansLabels demo_kmeans.
Proof.
  split; intros X.
  - apply length_fmap.
  - apply Forall_fmap, Forall_true. intros x.
    apply Nat.mod_upper_bound. discriminate.
Defined.

Lemma cluster_selection_partitions_witness :
  exists d, cluster_cells [0; 1; 2; 3; 4; 5; 6] [7; 8]
              [10; 11; 12; 13; 14; 15; 16] [17; 18] = Ok d
    /\ selection_partitions (predict [0; 1; 2; 3; 4; 5; 6]) [0; 1; 2; 3; 4; 5; 6]
         [10; 11; 12; 13; 14; 15; 16] (X_train_cluster d) (y_train_cluster d)
    /\ selection_partitions (predict [7; 8]) [7; 8] [17; 18]
         (X_test_cluster d) (y_test_cluster d).
Proof.
  apply (cluster_selection_partitions demo_kmeans demo_kmeans_labels);
    reflexivity.
Defined.

(** ** Train/test splitting *)

Lemma n_train_of_floor (n : nat) :
  10 * n_train_of n <= 8 * n < 10 * (n_train_of n + 1).
Proof.
  unfold n_train_of.
  pose proof (Nat.div_mod_eq (8 * n) 10) as Hdiv.
  pose proof (Nat.mod_upper_bound (8 * n) 10) as Hmod.
  lia.
Qed.

Lemma permutation_length `{ShuffleSpec} (seed : Z) (n : nat) :
  length (permutation seed n) = n.
Proof. rewrite (Permutation_length (permutation_perm seed n)). apply length_seq. Qed.

Lemma permutation_in_range `{ShuffleSpec} (seed : Z) (n : nat) :
  Forall (fun j => j < n) (permutation seed n).
Proof.
  rewrite (permutation_perm seed n). apply Forall_seq. intros j Hj. lia.
Qed.

(** C9 fails as stated at N = 1: the training share rounds down to no
    sample, and the call raises instead of returning four arrays. *)
Lemma train_test_split_one_sample :
  train_test_split (H := demo_shuffle) ["CC"%string] [Dec 12 (-1)] 0 = Raise ValueError.
Proof. reflexivity. Qed.

(** The training share of at most one sample is no sample, and the call
    raises whatever the arrays and the seed. *)
Lemma train_test_split_too_few {A B : Type} `{Shuffle} (X : list A) (y : list B)
    (random_state : Z) :
  length X <= 1 -> train_test_split X y random_state = Raise ValueError.
Proof.
  intros Hfew. unfold train_test_split.
  destruct (length X =? length y); [cbn [negb]|reflexivity].
  assert (Hzero : n_train_of (length X) = 0).
  { unfold n_train_of. apply Nat.div_small. lia. }
  by rewrite Hzero.
Qed.

(** C9, amended.  For every dataset of N >= 2 paired samples,
    [train_test_split] with [train_size=0.8] returns four arrays such that
    the training and test rows are disjoint and together are all N rows
    exactly once, [X_train] pairs row-for-row with [y_train] and [X_test]
    with [y_test], the training set holds 80% of the samples rounded down,
    and the test set holds the remainder; for N <= 1 the training share
    rounds down to no sample and the call raises [ValueError] instead of
    returning. *)
Theorem train_test_split_partitions {A B : Type} (S : Shuffle) (HS : ShuffleSpec S) :
  forall (X : list A) (y : list B) (random_state : Z),
    (length y = length X ->
     2 <= length X ->
     exists ind_train ind_test X_train X_test y_train y_test,
       train_test_split X y random_state = Ok (X_train, X_test, y_train, y_test)
       /\ ind_train ++ ind_test ≡ₚ seq 0 (length X)
       /\ Some <$> X_train = rows_at X ind_train
       /\ Some <$> y_train = rows_at y ind_train
       /\ Some <$> X_test = rows_at X ind_test
       /\ Some <$> y_test = rows_at y ind_test
       /\ length X_train = length y_train
       /\ length X_test = length y_test
       /\ 10 * length X_train <= 8 * length X < 10 * (length X_train + 1)
       /\ length X_test = length X - length X_train)
    /\ (length X <= 1 -> train_test_split X y random_state = Raise ValueError).
Proof.
  intros X y seed. split; [|apply train_test_split_too_few].
  intros Hlen Hn.
  set (n := length X) in *.
  pose proof (n_train_of_floor n) as Hfloor.
  pose proof (permutation_length seed n) as Hperm_len.
  pose proof (permutation_in_range seed n) as Hperm_range.
  set (perm := permutation seed n) in *.
  set (ind_test := take (n - n_train_of n) perm).
  set (ind_train := take (n_train_of n) (drop (n - n_train_of n) perm)).
  assert (Hind_train : ind_train = drop (n - n_train_of n) perm).
  { unfold ind_train. apply take_ge. rewrite length_drop. lia. }
  assert (Hlen_test : length ind_test = n - n_train_of n).
  { unfold ind_test. rewrite length_take. lia. }
  assert (Hlen_train : length ind_train = n_train_of n).
  { rewrite Hind_train, length_drop. lia. }
  assert (Htest_range : Forall (fun j => j < n) ind_test).
  { unfold ind_test. by apply Forall_take. }
  assert (Htrain_range : Forall (fun j => j < n) ind_train).
  { rewrite Hind_train. by apply Forall_drop. }
  destruct (take_rows_ok X ind_train) as (X_train & HXtr & HnXtr & HrXtr);
    [assumption|].
  destruct (take_rows_ok X ind_test) as (X_test & HXte & HnXte & HrXte);
    [assumption|].
  destruct (take_rows_ok y ind_train) as (y_train & Hytr & Hnytr & Hrytr);
    [by rewrite Hlen|].
  destruct (take_rows_ok y ind_test) as (y_test & Hyte & Hnyte & Hryte);
    [by rewrite Hlen|].
  exists ind_train, ind_test, X_train, X_test, y_train, y_test.
  split; [|split].
  - unfold train_test_split. rewrite Hlen. fold n.
    rewrite Nat.eqb_refl. cbn [negb].
    destruct (Nat.eqb_spec (n_train_of n) 0) as [Hzero|_]; [lia|].
    fold perm. fold ind_test. fold ind_train. clearbody ind_train ind_test.
    rewrite HXtr. cbn. rewrite HXte. cbn. rewrite Hytr. cbn. by rewrite Hyte.
  - rewrite Hind_train. unfold ind_test.
    rewrite Permutation_app_comm, take_drop. apply permutation_perm.
  - repeat split; try assumption; lia.
Qed.

Lemma demo_shuffle_spec : ShuffleSpec demo_shuffle.
Proof. split. intros seed n. cbn. apply reverse_Permutation. Defined.

Lemma train_test_split_partitions_witness :
  (exists ind_train ind_test X_train X_test y_train y_test,
     train_test_split (H := demo_shuffle) [1; 2; 3; 4; 5] [10; 20; 30; 40; 50] 0
       = Ok (X_train, X_test, y_train, y_test)
     /\ ind_train ++ ind_test ≡ₚ seq 0 5
     /\ Some <$> X_train = rows_at [1; 2; 3; 4; 5] ind_train
     /\ Some <$> y_train = rows_at [10; 20; 30; 40; 50] ind_train
     /\ Some <$> X_test = rows_at [1; 2; 3; 4; 5] ind_test
     /\ Some <$> y_test = rows_at [10; 20; 30; 40; 50] ind_test
     /\ length X_train = length y_train
     /\ length X_test = length y_test
     /\ 10 * length X_train <= 8 * 5 < 10 * (length X_train + 1)
     /\ length X_test = 5 - length X_train)
  /\ train_test_split (H := demo_shuffle) [1] [10] 0 = Raise ValueError
  /\ train_test_split (H := demo_shuffle) ([] : list nat) ([] : list nat) 0
     = Raise ValueError.
Proof.
  split; [|split].
  - apply (train_test_split_partitions demo_shuffle demo_shuffle_spec
             [1; 2; 3; 4; 5] [10; 20; 30; 40; 50] 0%Z).
    + reflexivity.
    + cbn. lia.
  - apply (train_test_split_partitions demo_shuffle demo_shuffle_spec [1] [10] 0%Z).
    cbn. lia.
  - apply (train_test_split_partitions demo_shuffle demo_shuffle_spec
             ([] : list nat) ([] : list nat) 0%Z).
    cbn. lia.
Defined.

(** * Further properties of the cells *)

(** ** The [try] block of the stacking loop *)

Lemma try_block_missing_cell `{RDKit} (ML_data : DataFrame) (i : nat) (r : GasRow) :
  ML_data !! i = Some r -> smiles r = None ->
  try_block ML_data i = Raise TypeError.
Proof.
  intros Hr Hs. unfold try_block, iloc_1. rewrite Hr. cbn. by rewrite Hs.
Qed.

Lemma try_block_unparsable `{RDKit} (ML_data : DataFrame) (i : nat) (r : GasRow)
    (s : string) :
  ML_data !! i = Some r -> smiles r = Some s -> MolFromSmiles s = None ->
  try_block ML_data i = Raise ArgumentError.
Proof.
  intros Hr Hs Hm. unfold try_block, iloc_1. rewrite Hr. cbn. rewrite Hs. cbn.
  by rewrite Hm.
Qed.

Lemma try_block_cases `{RDKit} (ML_data : DataFrame) (i : nat) :
  (exists r s m, ML_data !! i = Some r /\ smiles r = Some s
                 /\ MolFromSmiles s = Some m
                 /\ try_block ML_data i = calculate_fingerprint (Some m))
  \/ (ML_data !! i = None /\ try_block ML_data i = Raise IndexError)
  \/ (~ row_valid_at ML_data i /\ is_Some (ML_data !! i)
      /\ exists e, try_block ML_data i = Raise e).
Proof.
  unfold row_valid_at, valid_row.
  destruct (ML_data !! i) as [r|] eqn:Hr.
  - destruct (smiles r) as [s|] eqn:Hs.
    + destruct (MolFromSmiles s) as [m|] eqn:Hm.
      * left. exists r, s, m. repeat split; try assumption.
        unfold try_block, iloc_1. rewrite Hr. cbn. rewrite Hs. cbn. by rewrite Hm.
      * right. right. split; [|split; [by eexists|]].
        -- intros (r' & [= <-] & s' & m' & Hs' & Hm'). congruence.
        -- eexists. by eapply try_block_unparsable.
    + right. right. split; [|split; [by eexists|]].
      * intros (r' & [= <-] & s' & m' & Hs' & Hm'). congruence.
      * eexists. by eapply try_block_missing_cell.
  - right. left. split; [reflexivity|].
    unfold try_block, iloc_1. by rewrite Hr.
Qed.

(** X1. For a row of the frame, the [try] block of the stacking loop ends
    normally exactly when the row's SMILES entry is present and parses; a
    missing entry makes [Chem.MolFromSmiles] raise [TypeError], and an entry
    that does not parse makes [calculate_fingerprint] raise the wrapped
    library's [ArgumentError] on [None]. *)
Theorem try_block_raises_iff_invalid (R : RDKit) :
  forall (ML_data : DataFrame) (i : nat) (r : GasRow),
    ML_data !! i = Some r ->
    (raised (try_block ML_data i) = false <-> row_valid_at ML_data i)
    /\ (smiles r = None -> try_block ML_data i = Raise TypeError)
    /\ (forall s, smiles r = Some s -> MolFromSmiles s = None ->
          try_block ML_data i = Raise ArgumentError).
Proof.
  intros ML_data i r Hr. split; [|split].
  - destruct (try_block_cases ML_data i)
      as [(r' & s & m & Hr' & Hs & Hm & Htry)|[[Hnone _]|(Hinv & _ & e & Htry)]].
    + rewrite Htry, calculate_fingerprint_Some. cbn.
      split; [|reflexivity]. intros _. exists r'. split; [assumption|].
      by exists s, m.
    + congruence.
    + rewrite Htry. cbn. split; [discriminate|]. intros Hvalid. by destruct Hinv.
  - by apply try_block_missing_cell.
  - intros s. by apply try_block_unparsable.
Qed.

Lemma try_block_raises_iff_invalid_witness :
  (raised (try_block demo_frame 1) = false <-> row_valid_at demo_frame 1)
  /\ try_block demo_frame 2 = Raise TypeError
  /\ try_block demo_frame 3 = Raise ArgumentError.
Proof.
  split; [|split].
  - by apply (try_block_raises_iff_invalid demo_rdkit demo_frame 1
                (demo_row "polyethylene" "CC")).
  - eapply (try_block_raises_iff_invalid demo_rdkit demo_frame 2); reflexivity.
  - eapply (try_block_raises_iff_invalid demo_rdkit demo_frame 3);
      reflexivity.
Defined.

(** ** What the stacking loop stores, row by row *)

Section StackingContent.
Context `{Hsizes : RDKitSizes}.

Lemma try_block_Ok_single (ML_data : DataFrame) (i : nat) (t : matrix) :
  try_block ML_data i = Ok t -> exists v, t = [v] /\ length v = 2048.
Proof.
  intros Htry. destruct (try_block_shape ML_data i t Htry) as [Hlen Hrows].
  destruct t as [|v [|? ?]]; try discriminate.
  exists v. split; [reflexivity|]. by inversion Hrows.
Qed.

Lemma stack_body_Ok_step (ML_data : DataFrame) (st : namespace) (i : nat) (v : vector) :
  try_block ML_data i = Ok [v] ->
  Forall (fun row => length row = 2048) (fp st) ->
  stack_body ML_data st i
  = Ok {| fp := fp st ++ [v]; fp_temp := Some [v];
          stdout := stdout st ++ [PrintInt i] |}.
Proof.
  intros Htry Hfp.
  destruct (try_block_shape ML_data i [v] Htry) as [_ Hrows].
  unfold stack_body. rewrite Htry. cbn [fp fp_temp stdout].
  by rewrite (np_vstack_ok 2048).
Qed.

Lemma stack_body_Raise_step (ML_data : DataFrame) (st : namespace) (i : nat)
    (e : Exn) (v0 : vector) :
  try_block ML_data i = Raise e ->
  fp_temp st = Some [v0] -> length v0 = 2048 ->
  Forall (fun row => length row = 2048) (fp st) ->
  stack_body ML_data st i
  = Ok {| fp := fp st ++ [v0]; fp_temp := Some [v0];
          stdout := (stdout st ++ [PrintStr "Error getting fingerprint"])
                    ++ [PrintInt i] |}.
Proof.
  intros Htry Htemp Hv0 Hfp.
  unfold stack_body. rewrite Htry. cbn [fp fp_temp stdout]. rewrite Htemp.
  rewrite (np_vstack_ok 2048); [reflexivity|assumption|].
  by repeat constructor.
Qed.

Lemma stack_body_unbound (ML_data : DataFrame) (st : namespace) (i : nat) (e : Exn) :
  try_block ML_data i = Raise e ->
  fp_temp st = None ->
  stack_body ML_data st i = Raise NameError.
Proof.
  intros Htry Htemp. unfold stack_body. rewrite Htry. cbn [fp fp_temp stdout].
  by rewrite Htemp.
Qed.

Lemma stacked_last (m : matrix) (v : vector) (a : nat) :
  length m = a -> (m ++ [v]) !! a = Some v.
Proof.
  intros <-. unfold matrix in *. rewrite lookup_app_r by lia.
  by rewrite Nat.sub_diag.
Qed.

Lemma stacked_front (m t : matrix) (j : nat) :
  j < length m -> (m ++ t) !! j = m !! j.
Proof. intros Hj. unfold matrix in *. by apply lookup_app_l. Qed.

(** The loop over the rows [a+1 ..], entered when the last stacked row
    (number [a]) is the fingerprint [fp_temp] holds: a row that does not
    raise is stacked at its own number, a row that raises gets a copy of the
    row above it, and the rows stacked before are not touched. *)
Lemma stack_loop_content (ML_data : DataFrame) (len : nat) :
  forall (a : nat) (st : namespace) (v0 : vector),
    length (fp st) = S a ->
    Forall (fun row => length row = 2048) (fp st) ->
    fp_temp st = Some [v0] -> length v0 = 2048 ->
    fp st !! a = Some v0 ->
    exists st', for_each (stack_body ML_data) st (seq (S a) len) = Ok st'
      /\ length (fp st') = S a + len
      /\ (forall j, j <= a -> fp st' !! j = fp st !! j)
      /\ (forall i, S a <= i < S a + len ->
            (forall v, try_block ML_data i = Ok [v] -> fp st' !! i = Some v)
            /\ (raised (try_block ML_data i) = true ->
                fp st' !! i = fp st' !! (i - 1))).
Proof.
  induction len as [|len IH]; intros a st v0 Hlen Hfp Htemp Hv0 Hlast.
  - exists st. cbn. repeat split; try lia; intros; lia.
  - cbn [seq for_each].
    destruct (try_block ML_data (S a)) as [t|e] eqn:Htry.
    + destruct (try_block_Ok_single _ _ _ Htry) as (v & -> & Hv).
      rewrite (stack_body_Ok_step _ _ _ _ Htry Hfp). cbn [mbind result_bind].
      set (st1 := {| fp := fp st ++ [v]; fp_temp := Some [v];
                     stdout := stdout st ++ [PrintInt (S a)] |}).
      destruct (IH (S a) st1 v) as (st' & Hrun & Hlen' & Hpre & Hrows).
      * unfold st1; cbn [fp]. rewrite length_app. cbn [length]. lia.
      * unfold st1; cbn [fp]. apply Forall_app. split; [assumption|by repeat constructor].
      * reflexivity.
      * assumption.
      * unfold st1; cbn [fp]. by apply stacked_last.
      * exists st'. split; [assumption|]. split; [lia|]. split.
        -- intros j Hj. rewrite Hpre by lia. unfold st1; cbn [fp].
           apply stacked_front. lia.
        -- intros i Hi. destruct (decide (i = S a)) as [->|Hne].
           ++ split.
              ** intros v' Hv'. rewrite Htry in Hv'. injection Hv' as <-.
                 rewrite Hpre by lia. unfold st1; cbn [fp].
                 by apply stacked_last.
              ** rewrite Htry. discriminate.
           ++ apply Hrows. lia.
    + rewrite (stack_body_Raise_step _ _ _ _ _ Htry Htemp Hv0 Hfp).
      cbn [mbind result_bind].
      set (st1 := {| fp := fp st ++ [v0]; fp_temp := Some [v0];
                     stdout := (stdout st ++ [PrintStr "Error getting fingerprint"])
                               ++ [PrintInt (S a)] |}).
      destruct (IH (S a) st1 v0) as (st' & Hrun & Hlen' & Hpre & Hrows).
      * unfold st1; cbn [fp]. rewrite length_app. cbn [length]. lia.
      * unfold st1; cbn [fp]. apply Forall_app. split; [assumption|by repeat constructor].
      * reflexivity.
      * assumption.
      * unfold st1; cbn [fp]. by apply stacked_last.
      * exists st'. split; [assumption|]. split; [lia|]. split.
        -- intros j Hj. rewrite Hpre by lia. unfold st1; cbn [fp].
           apply stacked_front. lia.
        -- intros i Hi. destruct (decide (i = S a)) as [->|Hne].
           ++ split.
              ** intros v' Hv'. rewrite Htry in Hv'. discriminate.
              ** intros _. replace (S a - 1) with a by lia.
                 rewrite !Hpre by lia. unfold st1; cbn [fp].
                 rewrite (stacked_last _ _ _ Hlen).
                 rewrite stacked_front by lia. by rewrite Hlast.
           ++ apply Hrows. lia.
Qed.

(** The cell, when rows 0 and 1 do not raise. *)
Lemma stacking_cell_content (ML_data : DataFrame) (pre : option matrix)
    (out : list printed) :
  row_valid_at ML_data 0 ->
  (1 < length ML_data -> row_valid_at ML_data 1) ->
  exists st, stacking_cell ML_data pre out = Ok st
    /\ length (fp st) = length ML_data
    /\ (forall i v, i < length ML_data ->
          try_block ML_data i = Ok [v] -> fp st !! i = Some v)
    /\ (forall i, 2 <= i < length ML_data ->
          raised (try_block ML_data i) = true ->
          fp st !! i = fp st !! (i - 1)).
Proof.
  intros H0 H1.
  destruct (try_block_valid ML_data 0 H0) as (t0 & Htry0 & _).
  destruct (try_block_Ok_single _ _ _ Htry0) as (v0 & -> & Hv0).
  assert (Hcell : stacking_cell ML_data pre out
                  = for_each (stack_body ML_data)
                      {| fp := [v0]; fp_temp := pre; stdout := out |}
                      (range 1 (length ML_data))).
  { unfold stacking_cell. unfold try_block in Htry0.
    destruct (iloc_1 ML_data 0) as [cell|]; [cbn in *|discriminate].
    destruct (Chem_MolFromSmiles cell) as [mol|]; [cbn in *|discriminate].
    by rewrite Htry0. }
  rewrite Hcell. clear Hcell.
  destruct H0 as (r0 & Hr0 & _).
  assert (Hpos : 0 < length ML_data) by (by eapply lookup_lt_Some).
  destruct (decide (1 < length ML_data)) as [Hlong|Hshort].
  - rewrite range_cons by assumption. unfold range.
    destruct (try_block_valid ML_data 1 (H1 Hlong)) as (t1 & Htry1 & _).
    destruct (try_block_Ok_single _ _ _ Htry1) as (v1 & -> & Hv1).
    cbn [for_each]. rewrite (stack_body_Ok_step _ _ _ _ Htry1);
      [|by repeat constructor].
    cbn [mbind result_bind fp fp_temp stdout].
    destruct (stack_loop_content ML_data (length ML_data - 2) 1
                {| fp := [v0] ++ [v1]; fp_temp := Some [v1];
                   stdout := out ++ [PrintInt 1] |} v1)
      as (st' & Hrun & Hlen' & Hpre & Hrows);
      [reflexivity|by repeat constructor|reflexivity|assumption|reflexivity|].
    exists st'. split; [assumption|]. split; [lia|]. split.
    + intros i v Hi Htry.
      destruct i as [|[|i]].
      * rewrite Hpre by lia. rewrite Htry0 in Htry. by injection Htry as <-.
      * rewrite Hpre by lia. rewrite Htry1 in Htry. by injection Htry as <-.
      * apply Hrows; [lia|assumption].
    + intros i Hi Hraise. apply Hrows; [lia|assumption].
  - replace (length ML_data) with 1 by lia. cbn.
    eexists. split; [reflexivity|]. cbn. split; [lia|]. split.
    + intros i v Hi Htry. replace i with 0 in * by lia.
      rewrite Htry0 in Htry. by injection Htry as <-.
    + intros i Hi. lia.
Qed.

End StackingContent.

(** X2. When rows 0 and 1 do not raise, every row whose library calls do
    not raise has its own fingerprint stacked at its own row number of
    [fp]. *)
Theorem stacked_row_is_own_fingerprint (R : RDKit) (Hsizes : RDKitSizes R) :
  forall (ML_data : DataFrame) (pre : option matrix) (out : list printed)
         (st : namespace) (i : nat) (v : vector),
    row_valid_at ML_data 0 ->
    (1 < length ML_data -> row_valid_at ML_data 1) ->
    stacking_cell ML_data pre out = Ok st ->
    i < length ML_data ->
    try_block ML_data i = Ok [v] ->
    fp st !! i = Some v.
Proof.
  intros ML_data pre out st i v H0 H1 Hrun Hi Htry.
  destruct (stacking_cell_content ML_data pre out H0 H1)
    as (st' & Hrun' & _ & Hown & _).
  rewrite Hrun in Hrun'. injection Hrun' as <-. by apply Hown.
Qed.

Lemma stacked_row_is_own_fingerprint_witness :
  exists st v, stacking_cell demo_frame None [] = Ok st
    /\ try_block demo_frame 1 = Ok [v]
    /\ fp st !! 1 = Some v.
Proof.
  destruct (stacking_cell_runs (Hsizes := demo_rdkit_sizes) demo_frame None [])
    as (st & Hrun & _).
  - exists (demo_row "polyaniline" "c1ccccc1N"). split; [reflexivity|].
    by apply demo_row_valid.
  - intros _. exists (demo_row "polyethylene" "CC"). split; [reflexivity|].
    by apply demo_row_valid.
  - exists st. eexists. split; [exact Hrun|]. split; [reflexivity|].
    apply (stacked_row_is_own_fingerprint demo_rdkit demo_rdkit_sizes
             demo_frame None [] st 1).
    + exists (demo_row "polyaniline" "c1ccccc1N"). split; [reflexivity|].
      by apply demo_row_valid.
    + intros _. exists (demo_row "polyethylene" "CC"). split; [reflexivity|].
      by apply demo_row_valid.
    + exact Hrun.
    + cbn. lia.
    + reflexivity.
Defined.

(** X3. When rows 0 and 1 do not raise, a later row whose library calls
    raise is not skipped: row [i] of [fp] is a copy of row [i - 1], the
    fingerprint stacked for the row above. *)
Theorem failed_row_repeats_previous (R : RDKit) (Hsizes : RDKitSizes R) :
  forall (ML_data : DataFrame) (pre : option matrix) (out : list printed)
         (st : namespace) (i : nat),
    row_valid_at ML_data 0 ->
    (1 < length ML_data -> row_valid_at ML_data 1) ->
    stacking_cell ML_data pre out = Ok st ->
    2 <= i < length ML_data ->
    raised (try_block ML_data i) = true ->
    is_Some (fp st !! i) /\ fp st !! i = fp st !! (i - 1).
Proof.
  intros ML_data pre out st i H0 H1 Hrun Hi Hraise.
  destruct (stacking_cell_content ML_data pre out H0 H1)
    as (st' & Hrun' & Hlen & _ & Hcopy).
  rewrite Hrun in Hrun'. injection Hrun' as <-. split.
  - apply lookup_lt_is_Some_2. lia.
  - by apply Hcopy.
Qed.

Lemma failed_row_repeats_previous_witness :
  exists st, stacking_cell demo_frame None [] = Ok st
    /\ is_Some (fp st !! 2) /\ fp st !! 2 = fp st !! 1.
Proof.
  destruct (stacking_cell_runs (Hsizes := demo_rdkit_sizes) demo_frame None [])
    as (st & Hrun & _).
  - exists (demo_row "polyaniline" "c1ccccc1N"). split; [reflexivity|].
    by apply demo_row_valid.
  - intros _. exists (demo_row "polyethylene" "CC"). split; [reflexivity|].
    by apply demo_row_valid.
  - exists st. split; [exact Hrun|].
    apply (failed_row_repeats_previous demo_rdkit demo_rdkit_sizes
             demo_frame None [] st 2).
    + exists (demo_row "polyaniline" "c1ccccc1N"). split; [reflexivity|].
      by apply demo_row_valid.
    + intros _. exists (demo_row "polyethylene" "CC"). split; [reflexivity|].
      by apply demo_row_valid.
    + exact Hrun.
    + cbn. lia.
    + reflexivity.
Defined.

(** ** The stacking cell in a fresh kernel *)

Section FreshKernel.
Context `{Hsizes : RDKitSizes}.

Lemma stacking_cell_empty (pre : option matrix) (out : list printed) :
  stacking_cell [] pre out = Raise IndexError.
Proof. reflexivity. Qed.

Lemma stacking_cell_row0_raises (ML_data : DataFrame) (pre : option matrix)
    (out : list printed) (e : Exn) :
  try_block ML_data 0 = Raise e -> stacking_cell ML_data pre out = Raise e.
Proof.
  intros Htry. unfold stacking_cell. unfold try_block in Htry.
  destruct (iloc_1 ML_data 0) as [cell|]; cbn in *;
    [|by injection Htry as ->].
  destruct (Chem_MolFromSmiles cell) as [mol|]; cbn in *;
    [|by injection Htry as ->].
  by rewrite Htry.
Qed.

Lemma stacking_cell_row0_invalid (ML_data : DataFrame) (pre : option matrix)
    (out : list printed) :
  0 < length ML_data -> ~ row_valid_at ML_data 0 ->
  exists e, stacking_cell ML_data pre out = Raise e.
Proof.
  intros Hpos Hinv.
  destruct (try_block_cases ML_data 0)
    as [(r & s & m & Hr & Hs & Hm & _)|[[Hnone _]|(_ & _ & e & Htry)]].
  - destruct Hinv. exists r. split; [assumption|]. by exists s, m.
  - apply lookup_ge_None in Hnone. lia.
  - exists e. by apply stacking_cell_row0_raises.
Qed.

Lemma stacking_cell_row1_invalid (ML_data : DataFrame) (out : list printed) :
  row_valid_at ML_data 0 -> 1 < length ML_data -> ~ row_valid_at ML_data 1 ->
  stacking_cell ML_data None out = Raise NameError.
Proof.
  intros H0 Hlong Hinv.
  destruct (try_block_valid ML_data 0 H0) as (fp0 & Htry0 & _).
  assert (Hcell : stacking_cell ML_data None out
                  = for_each (stack_body ML_data)
                      {| fp := fp0; fp_temp := None; stdout := out |}
                      (range 1 (length ML_data))).
  { unfold stacking_cell. unfold try_block in Htry0.
    destruct (iloc_1 ML_data 0) as [cell|]; [cbn in *|discriminate].
    destruct (Chem_MolFromSmiles cell) as [mol|]; [cbn in *|discriminate].
    by rewrite Htry0. }
  rewrite Hcell, range_cons by assumption. cbn [for_each].
  destruct (try_block_cases ML_data 1)
    as [(r & s & m & Hr & Hs & Hm & _)|[[Hnone Htry]|(_ & _ & e & Htry)]].
  - destruct Hinv. exists r. split; [assumption|]. by exists s, m.
  - by rewrite (stack_body_unbound _ _ _ _ Htry).
  - by rewrite (stack_body_unbound _ _ _ _ Htry).
Qed.

End FreshKernel.

(** X4. How the stacking cell fails in a fresh kernel: on a frame without
    rows with [IndexError]; when row 0 has no SMILES entry, with the
    [TypeError] of [Chem.MolFromSmiles]; when the SMILES entry of row 0 does
    not parse, with the wrapped library's [ArgumentError]; and when row 0 is
    fine but row 1 is not, with [NameError], because the handler has printed
    its message and no row has bound [fp_temp] yet. *)
Theorem stacking_cell_failures (R : RDKit) (Hsizes : RDKitSizes R) :
  forall (ML_data : DataFrame) (out : list printed),
    (ML_data = [] -> stacking_cell ML_data None out = Raise IndexError)
    /\ (forall r, ML_data !! 0 = Some r -> smiles r = None ->
          stacking_cell ML_data None out = Raise TypeError)
    /\ (forall r s, ML_data !! 0 = Some r -> smiles r = Some s ->
          MolFromSmiles s = None ->
          stacking_cell ML_data None out = Raise ArgumentError)
    /\ (row_valid_at ML_data 0 -> 1 < length ML_data ->
        ~ row_valid_at ML_data 1 ->
        stacking_cell ML_data None out = Raise NameError).
Proof.
  intros ML_data out. split; [|split; [|split]].
  - intros ->. apply stacking_cell_empty.
  - intros r Hr Hs. apply stacking_cell_row0_raises.
    by eapply try_block_missing_cell.
  - intros r s Hr Hs Hm. apply stacking_cell_row0_raises.
    by eapply try_block_unparsable.
  - apply stacking_cell_row1_invalid.
Qed.

Lemma demo_row_invalid_at (df : DataFrame) (i : nat) (r : GasRow) :
  df !! i = Some r ->
  match smiles r with Some s => demo_MolFromSmiles s | None => None end = None ->
  ~ row_valid_at df i.
Proof.
  intros Hr Hbad (r' & Hr' & s & m & Hs & Hm).
  rewrite Hr in Hr'. injection Hr' as <-. rewrite Hs in Hbad.
  cbn in Hm. congruence.
Defined.

Lemma stacking_cell_failures_witness :
  stacking_cell [] None [] = Raise IndexError
  /\ stacking_cell (drop 2 demo_frame) None [] = Raise TypeError
  /\ stacking_cell (drop 3 demo_frame) None [] = Raise ArgumentError
  /\ stacking_cell [demo_row "polyethylene" "CC"; demo_row "misspelt" "?C(C"]
       None [] = Raise NameError.
Proof.
  split; [|split; [|split]].
  - by apply (stacking_cell_failures demo_rdkit demo_rdkit_sizes [] []).
  - eapply (stacking_cell_failures demo_rdkit demo_rdkit_sizes
              (drop 2 demo_frame) []); reflexivity.
  - eapply (stacking_cell_failures demo_rdkit demo_rdkit_sizes
              (drop 3 demo_frame) []); reflexivity.
  - apply (stacking_cell_failures demo_rdkit demo_rdkit_sizes
             [demo_row "polyethylene" "CC"; demo_row "misspelt" "?C(C"] []).
    + exists (demo_row "polyethylene" "CC"). split; [reflexivity|].
      by apply demo_row_valid.
    + cbn. lia.
    + by eapply demo_row_invalid_at.
Defined.

(** X5. In a fresh kernel the stacking cell ends normally exactly when row 0
    has a SMILES entry that parses and so has row 1, if there is one; what
    the rows after them hold does not matter. *)
Theorem stacking_cell_ends_normally_iff (R : RDKit) (Hsizes : RDKitSizes R) :
  forall (ML_data : DataFrame) (out : list printed),
    (exists st, stacking_cell ML_data None out = Ok st)
    <-> row_valid_at ML_data 0
        /\ (1 < length ML_data -> row_valid_at ML_data 1).
Proof.
  intros ML_data out. split.
  - intros [st Hrun].
    destruct (try_block_cases ML_data 0)
      as [(r & s & m & Hr & Hs & Hm & _)|[[Hnone _]|(Hinv & [r Hr] & _)]].
    + assert (H0 : row_valid_at ML_data 0).
      { exists r. split; [assumption|]. by exists s, m. }
      split; [assumption|]. intros Hlong.
      destruct (try_block_cases ML_data 1)
        as [(r1 & s1 & m1 & Hr1 & Hs1 & Hm1 & _)|[[Hnone _]|(Hinv & _ & _)]].
      * exists r1. split; [assumption|]. by exists s1, m1.
      * apply lookup_ge_None in Hnone. lia.
      * rewrite (stacking_cell_row1_invalid ML_data out H0 Hlong Hinv) in Hrun.
        discriminate.
    + unfold stacking_cell, iloc_1 in Hrun. rewrite Hnone in Hrun. discriminate.
    + destruct (stacking_cell_row0_invalid ML_data None out) as [e He];
        [by eapply lookup_lt_Some|assumption|].
      rewrite He in Hrun. discriminate.
  - intros [H0 H1].
    destruct (stacking_cell_runs ML_data None out H0 H1) as (st & Hrun & _).
    by exists st.
Qed.

Lemma stacking_cell_ends_normally_iff_witness :
  (exists st, stacking_cell demo_frame None [] = Ok st)
  <-> row_valid_at demo_frame 0
      /\ (1 < length demo_frame -> row_valid_at demo_frame 1).
Proof.
  apply (stacking_cell_ends_normally_iff demo_rdkit demo_rdkit_sizes demo_frame []).
Defined.

(** ** The fingerprint helpers, bit by bit *)

Lemma bit_value_lookup (bv : list bool) (k : nat) :
  (bit_value <$> bv) !! k = Some 1%Z <-> bv !! k = Some true.
Proof.
  rewrite list_lookup_fmap.
  destruct (bv !! k) as [[|]|]; cbn; split; intros Heq;
    first [reflexivity | by inversion Heq].
Qed.

(** X6. On a mol object neither helper raises, and entry [k] of the vector
    it produces is 1 exactly when bit [k] of the RDKit bit vector is set:
    writing the MACCS keys to a bit string and reading the characters back
    as floats loses nothing.  On [None] (a SMILES string that did not parse)
    both helpers raise [ArgumentError]. *)
Theorem fingerprint_helpers_keep_bits (R : RDKit) :
  forall m : Mol,
    (exists v, get_MACCS (Some m) = Ok v
               /\ length v = length (GenMACCSKeys m)
               /\ forall k, v !! k = Some 1%Z <-> GenMACCSKeys m !! k = Some true)
    /\ (exists v, calculate_fingerprint (Some m) = Ok [v]
                  /\ length v = length (RDKFingerprint m 128)
                  /\ forall k, v !! k = Some 1%Z
                               <-> RDKFingerprint m 128 !! k = Some true)
    /\ get_MACCS None = Raise ArgumentError
    /\ calculate_fingerprint None = Raise ArgumentError.
Proof.
  intros m. split; [|split; [|split; reflexivity]].
  - exists (bit_value <$> GenMACCSKeys m). split; [|split].
    + unfold get_MACCS. cbn. apply fromiter_ToBitString.
    + apply length_fmap.
    + apply bit_value_lookup.
  - exists (ConvertToNumpyArray (RDKFingerprint m 128) (np_zeros 1)).
    split; [apply calculate_fingerprint_Some|]. split.
    + apply ConvertToNumpyArray_length.
    + apply bit_value_lookup.
Qed.

(** ** From the stacked fingerprints to the split *)

Lemma rows_at_Forall {A : Type} (P : A -> Prop) (a : list A) (idx : list nat) :
  forall xs, Some <$> xs = rows_at a idx -> Forall P a -> Forall P xs.
Proof.
  induction idx as [|j idx IH]; intros xs Hrows Ha.
  - destruct xs; [constructor|discriminate].
  - destruct xs as [|x xs]; [constructor|].
    unfold rows_at in *. cbn in Hrows. injection Hrows as Hx Hrest.
    constructor; [|by apply IH].
    symmetry in Hx. by eapply Forall_lookup_1.
Qed.

(** The split of paired arrays with at least two samples. *)
Lemma train_test_split_ok {A B : Type} `{HS : ShuffleSpec} (X : list A) (y : list B)
    (random_state : Z) :
  length y = length X -> 2 <= length X ->
  exists ind_train ind_test X_train X_test y_train y_test,
    train_test_split X y random_state = Ok (X_train, X_test, y_train, y_test)
    /\ Some <$> X_train = rows_at X ind_train
    /\ Some <$> X_test = rows_at X ind_test
    /\ length X_train = n_train_of (length X)
    /\ length X_test = length X - n_train_of (length X)
    /\ length y_train = length X_train
    /\ length y_test = length X_test.
Proof.
  intros Hlen Hn.
  pose proof (n_train_of_floor (length X)) as Hfloor.
  pose proof (permutation_length random_state (length X)) as Hperm_len.
  pose proof (permutation_in_range random_state (length X)) as Hperm_range.
  unfold train_test_split. rewrite Hlen, Nat.eqb_refl. cbn [negb].
  destruct (Nat.eqb_spec (n_train_of (length X)) 0) as [Hzero|_]; [lia|].
  generalize dependent (permutation random_state (length X)).
  intros perm Hperm_len Hperm_range.
  destruct (take_rows_ok X
              (take (n_train_of (length X))
                 (drop (length X - n_train_of (length X)) perm)))
    as (X_train & HXtr & HnXtr & HrXtr);
    [by apply Forall_take, Forall_drop|].
  destruct (take_rows_ok X (take (length X - n_train_of (length X)) perm))
    as (X_test & HXte & HnXte & HrXte); [by apply Forall_take|].
  destruct (take_rows_ok y
              (take (n_train_of (length X))
                 (drop (length X - n_train_of (length X)) perm)))
    as (y_train & Hytr & Hnytr & _);
    [rewrite Hlen; by apply Forall_take, Forall_drop|].
  destruct (take_rows_ok y (take (length X - n_train_of (length X)) perm))
    as (y_test & Hyte & Hnyte & _); [rewrite Hlen; by apply Forall_take|].
  eexists _, _, X_train, X_test, y_train, y_test.
  rewrite HXtr. cbn [mbind result_bind]. rewrite HXte. cbn [mbind result_bind].
  rewrite Hytr. cbn [mbind result_bind]. rewrite Hyte. cbn [mbind result_bind].
  split; [reflexivity|]. split; [exact HrXtr|]. split; [exact HrXte|].
  rewrite length_take, length_drop in HnXtr, Hnytr.
  rewrite length_take in HnXte, Hnyte.
  repeat split; lia.
Qed.

(** X8. For a gas frame with N >= 2 rows whose SMILES entries all parse, the
    stacking cell followed by the split cell ends normally: the fingerprint
    array and the logarithms of [perms] have the same length, so the split
    does not reject them; the training rows and the test rows are rows of
    2048 entries, there are floor(0.8 N) training rows and the remaining
    N - floor(0.8 N) test rows, and as many targets as rows on either side. *)
Theorem stacked_fingerprints_split {Y : Type} (R : RDKit) (Hsizes : RDKitSizes R)
    (S : Shuffle) (HS : ShuffleSpec S) (np_log10 : option decimal -> Y) :
  forall (ML_data : DataFrame) (pre : option matrix) (out : list printed),
    2 <= length ML_data ->
    Forall valid_row ML_data ->
    exists st X_train X_test y_train y_test,
      stacking_cell ML_data pre out = Ok st
      /\ permeability_split_cell np_log10 (fp st) (column_values ML_data)
         = Ok (X_train, X_test, y_train, y_test)
      /\ Forall (fun row => length row = 2048) X_train
      /\ Forall (fun row => length row = 2048) X_test
      /\ length X_train = n_train_of (length ML_data)
      /\ length X_test = length ML_data - n_train_of (length ML_data)
      /\ length y_train = length X_train
      /\ length y_test = length X_test.
Proof.
  intros ML_data pre out Hn Hvalid.
  destruct (stacking_cell_runs ML_data pre out) as (st & Hrun & Hlen & Hrows & _).
  { apply valid_rows_lookup; [assumption|lia]. }
  { intros _. apply valid_rows_lookup; [assumption|lia]. }
  destruct (train_test_split_ok (fp st) (np_log10 <$> column_values ML_data) 0)
    as (ind_train & ind_test & X_train & X_test & y_train & y_test
        & Hsplit & HrXtr & HrXte & HnXtr & HnXte & Hnytr & Hnyte).
  { unfold column_values. by rewrite !length_fmap, Hlen. }
  { lia. }
  exists st, X_train, X_test, y_train, y_test.
  split; [assumption|]. split; [exact Hsplit|].
  split; [by eapply rows_at_Forall|]. split; [by eapply rows_at_Forall|].
  rewrite <- Hlen. by repeat split.
Qed.

Lemma stacked_fingerprints_split_witness :
  exists st X_train X_test y_train y_test,
    stacking_cell (take 2 demo_frame) None [] = Ok st
    /\ permeability_split_cell (H := demo_shuffle) (fun x => x) (fp st)
         (column_values (take 2 demo_frame))
       = Ok (X_train, X_test, y_train, y_test)
    /\ Forall (fun row => length row = 2048) X_train
    /\ Forall (fun row => length row = 2048) X_test
    /\ length X_train = n_train_of 2
    /\ length X_test = 2 - n_train_of 2
    /\ length y_train = length X_train
    /\ length y_test = length X_test.
Proof.
  apply (stacked_fingerprints_split demo_rdkit demo_rdkit_sizes
           demo_shuffle demo_shuffle_spec (fun x => x) (take 2 demo_frame) None []).
  - cbn. lia.
  - repeat constructor; by apply demo_row_valid.
Defined.

(** ** The clusters, key by key *)

Lemma cluster_cells_three {Features Target : Type} `{HK : KMeansLabels Features}
    (X_train X_test : list Features) (y_train y_test : list Target) :
  length y_train = length X_train ->
  length y_test = length X_test ->
  exists d, cluster_cells X_train X_test y_train y_test = Ok d
    /\ three_selected X_train (predict X_train) (X_train_cluster d)
    /\ three_selected X_test (predict X_test) (X_test_cluster d)
    /\ three_selected y_train (predict X_train) (y_train_cluster d)
    /\ three_selected y_test (predict X_test) (y_test_cluster d).
Proof.
  intros Hytr Hyte.
  unfold cluster_cells, cluster_loop.
  change (range 0 n_clusters) with [0; 1; 2].
  pose proof (cluster_body_ok X_train X_test y_train y_test
                (predict X_train) (predict X_test)
                (predict_length X_train) (predict_length X_test) Hytr Hyte)
    as Hbody.
  destruct (Hbody empty_dicts 0)
    as (xtr0 & xte0 & ytr0 & yte0 & ? & ? & ? & ? & Hstep0).
  cbn [for_each]. rewrite Hstep0. cbn [mbind result_bind].
  match goal with |- context [cluster_body _ _ _ _ _ _ ?d 1] =>
    destruct (Hbody d 1) as (xtr1 & xte1 & ytr1 & yte1 & ? & ? & ? & ? & Hstep1)
  end.
  rewrite Hstep1. cbn [mbind result_bind].
  match goal with |- context [cluster_body _ _ _ _ _ _ ?d 2] =>
    destruct (Hbody d 2) as (xtr2 & xte2 & ytr2 & yte2 & ? & ? & ? & ? & Hstep2)
  end.
  rewrite Hstep2. cbn [mbind result_bind].
  eexists. split; [reflexivity|]. cbn.
  split; [|split; [|split]]; eexists _, _, _;
    (split; [reflexivity|]); (split; [assumption|]); split; assumption.
Qed.

Lemma three_selected_keys {A : Type} (a : list A) (labels : list nat)
    (d : gmap nat (list A)) (i : nat) :
  three_selected a labels d ->
  (is_Some (d !! i) <-> i < n_clusters)
  /\ (i < n_clusters -> exists xs, d !! i = Some xs /\ selected a labels i xs).
Proof.
  intros (x0 & x1 & x2 & -> & H0 & H1 & H2). unfold n_clusters.
  destruct i as [|[|[|i]]]; simplify_map_eq.
  - split; [split; [lia|by eexists]|]. intros _. by exists x0.
  - split; [split; [lia|by eexists]|]. intros _. by exists x1.
  - split; [split; [lia|by eexists]|]. intros _. by exists x2.
  - split; [split; [by intros [? ?]|lia]|lia].
Qed.

(** X9. After the selection loop each of the four dictionaries has exactly
    the keys 0, 1 and 2: indexing it with a cluster number finds an array,
    indexing it with any other number finds nothing. *)
Theorem cluster_dicts_keys {Features Target : Type}
    (K : KMeans Features) (HK : KMeansLabels K) :
  forall (X_train X_test : list Features) (y_train y_test : list Target)
         (d : cluster_dicts) (i : nat),
    length y_train = length X_train ->
    length y_test = length X_test ->
    cluster_cells X_train X_test y_train y_test = Ok d ->
    (is_Some (X_train_cluster d !! i) <-> i < n_clusters)
    /\ (is_Some (X_test_cluster d !! i) <-> i < n_clusters)
    /\ (is_Some (y_train_cluster d !! i) <-> i < n_clusters)
    /\ (is_Some (y_test_cluster d !! i) <-> i < n_clusters).
Proof.
  intros X_train X_test y_train y_test d i Hytr Hyte Hrun.
  destruct (cluster_cells_three X_train X_test y_train y_test Hytr Hyte)
    as (d' & Hrun' & HXtr & HXte & Hy_tr & Hy_te).
  rewrite Hrun in Hrun'. injection Hrun' as <-.
  repeat split; by eapply three_selected_keys.
Qed.

Lemma cluster_dicts_keys_witness :
  exists d, cluster_cells [0; 1; 2; 3; 4; 5; 6] [7; 8]
              [10; 11; 12; 13; 14; 15; 16] [17; 18] = Ok d
    /\ (is_Some (X_train_cluster d !! 3) <-> 3 < n_clusters)
    /\ (is_Some (X_test_cluster d !! 3) <-> 3 < n_clusters)
    /\ (is_Some (y_train_cluster d !! 3) <-> 3 < n_clusters)
    /\ (is_Some (y_test_cluster d !! 3) <-> 3 < n_clusters).
Proof.
  destruct (cluster_cells_three (HK := demo_kmeans_labels)
              [0; 1; 2; 3; 4; 5; 6] [7; 8] [10; 11; 12; 13; 14; 15; 16] [17; 18]
              eq_refl eq_refl) as (d & Hrun & _).
  exists d. split; [exact Hrun|].
  apply (cluster_dicts_keys demo_kmeans demo_kmeans_labels
           [0; 1; 2; 3; 4; 5; 6] [7; 8] [10; 11; 12; 13; 14; 15; 16] [17; 18] d 3);
    [reflexivity|reflexivity|exact Hrun].
Defined.

Lemma rows_labelled_cons {A : Type} (i : nat) (x : A) (a : list A)
    (l : nat) (labels : list nat) :
  rows_labelled i (x :: a) (l :: labels)
  = if l =? i then x :: rows_labelled i a labels else rows_labelled i a labels.
Proof.
  unfold rows_labelled. cbn [zip zip_with]. rewrite filter_cons. cbn.
  destruct (Nat.eqb_spec l i) as [Heq|Hne].
  - by rewrite decide_True.
  - by rewrite decide_False.
Qed.

Lemma rows_at_where_labelled {A : Type} (i : nat) (labels : list nat) :
  forall (front a : list A),
    length a = length labels ->
    rows_at (front ++ a) (where_eq_from (length front) labels i)
    = Some <$> rows_labelled i a labels.
Proof.
  induction labels as [|l labels IH]; intros front a Hlen.
  - by destruct a.
  - destruct a as [|x a]; [discriminate|]. cbn in Hlen.
    rewrite rows_labelled_cons. cbn [where_eq_from].
    specialize (IH (front ++ [x]) a).
    rewrite <- app_assoc, length_app in IH. cbn in IH.
    replace (length front + 1) with (S (length front)) in IH by lia.
    destruct (l =? i).
    + unfold rows_at in *. cbn [fmap list_fmap].
      rewrite IH by lia. f_equal.
      rewrite lookup_app_r by lia. by rewrite Nat.sub_diag.
    + apply IH. lia.
Qed.

Lemma selected_rows_labelled {A : Type} (a : list A) (labels : list nat)
    (i : nat) (xs : list A) :
  length a = length labels ->
  selected a labels i xs -> xs = rows_labelled i a labels.
Proof.
  intros Hlen [Hrows _].
  pose proof (rows_at_where_labelled i labels [] a Hlen) as Hfilter.
  cbn in Hfilter. fold (np_where_eq labels i) in Hfilter.
  rewrite Hfilter in Hrows. by apply (inj (fmap Some)) in Hrows.
Qed.

(** X10. After the selection loop, [X_train_cluster[i]] holds the rows of
    [X_train] labelled [i], each once and in the order they have in
    [X_train], and [y_train_cluster[i]] holds the targets of these same
    rows in the same order; likewise for the test set. *)
Theorem cluster_holds_labelled_rows {Features Target : Type}
    (K : KMeans Features) (HK : KMeansLabels K) :
  forall (X_train X_test : list Features) (y_train y_test : list Target)
         (d : cluster_dicts) (i : nat),
    length y_train = length X_train ->
    length y_test = length X_test ->
    cluster_cells X_train X_test y_train y_test = Ok d ->
    i < n_clusters ->
    X_train_cluster d !! i = Some (rows_labelled i X_train (predict X_train))
    /\ y_train_cluster d !! i = Some (rows_labelled i y_train (predict X_train))
    /\ X_test_cluster d !! i = Some (rows_labelled i X_test (predict X_test))
    /\ y_test_cluster d !! i = Some (rows_labelled i y_test (predict X_test)).
Proof.
  intros X_train X_test y_train y_test d i Hytr Hyte Hrun Hi.
  destruct (cluster_cells_three X_train X_test y_train y_test Hytr Hyte)
    as (d' & Hrun' & HXtr & HXte & Hy_tr & Hy_te).
  rewrite Hrun in Hrun'. injection Hrun' as <-.
  pose proof (predict_length X_train) as Hltr.
  pose proof (predict_length X_test) as Hlte.
  destruct (three_selected_keys _ _ _ i HXtr) as [_ Hk]. destruct (Hk Hi) as (xs1 & -> & Hs1).
  destruct (three_selected_keys _ _ _ i Hy_tr) as [_ Hk2]. destruct (Hk2 Hi) as (xs2 & -> & Hs2).
  destruct (three_selected_keys _ _ _ i HXte) as [_ Hk3]. destruct (Hk3 Hi) as (xs3 & -> & Hs3).
  destruct (three_selected_keys _ _ _ i Hy_te) as [_ Hk4]. destruct (Hk4 Hi) as (xs4 & -> & Hs4).
  repeat split; f_equal; apply selected_rows_labelled; congruence.
Qed.

Lemma cluster_holds_labelled_rows_witness :
  exists d, cluster_cells [0; 1; 2; 3; 4; 5; 6] [7; 8]
              [10; 11; 12; 13; 14; 15; 16] [17; 18] = Ok d
    /\ X_train_cluster d !! 1 = Some [1; 4]
    /\ y_train_cluster d !! 1 = Some [11; 14]
    /\ X_test_cluster d !! 1 = Some [7]
    /\ y_test_cluster d !! 1 = Some [17].
Proof.
  destruct (cluster_cells_three (HK := demo_kmeans_labels)
              [0; 1; 2; 3; 4; 5; 6] [7; 8] [10; 11; 12; 13; 14; 15; 16] [17; 18]
              eq_refl eq_refl) as (d & Hrun & _).
  exists d. split; [exact Hrun|].
  apply (cluster_holds_labelled_rows demo_kmeans demo_kmeans_labels
           [0; 1; 2; 3; 4; 5; 6] [7; 8] [10; 11; 12; 13; 14; 15; 16] [17; 18] d 1);
    [reflexivity|reflexivity|exact Hrun|unfold n_clusters; lia].
Defined.

(** ** From the split to the clusters *)

Lemma three_selected_partition {A B : Type} (labels : list nat)
    (X : list A) (y : list B) (dX : gmap nat (list A)) (dy : gmap nat (list B)) :
  length labels = length X ->
  Forall (fun l => l < n_clusters) labels ->
  three_selected X labels dX -> three_selected y labels dy ->
  selection_partitions labels X y dX dy.
Proof.
  intros Hlen Hrange (x0 & x1 & x2 & -> & ? & ? & ?) (y0 & y1 & y2 & -> & ? & ? & ?).
  by apply three_keys_partition.
Qed.

(** X11. For N >= 4 paired samples the melting-point cells from the split
    to the selection loop end normally, and the clusters partition both
    sides of the split: the training clusters hold floor(0.8 N) rows in all,
    the test clusters the remaining N - floor(0.8 N), and each dictionary of
    targets holds as many entries as the dictionary of rows beside it. *)
Theorem split_then_clusters {Features Target : Type}
    (S : Shuffle) (HS : ShuffleSpec S) (K : KMeans Features) (HK : KMeansLabels K) :
  forall (X : list Features) (y : list Target),
    length y = length X ->
    4 <= length X ->
    exists d, melting_cells X y = Ok d
      /\ sum_list (rows_in (X_train_cluster d) <$> seq 0 n_clusters)
         = n_train_of (length X)
      /\ sum_list (rows_in (y_train_cluster d) <$> seq 0 n_clusters)
         = n_train_of (length X)
      /\ sum_list (rows_in (X_test_cluster d) <$> seq 0 n_clusters)
         = length X - n_train_of (length X)
      /\ sum_list (rows_in (y_test_cluster d) <$> seq 0 n_clusters)
         = length X - n_train_of (length X).
Proof.
  intros X y Hlen Hn.
  destruct (train_test_split_ok X y 42)
    as (ind_train & ind_test & X_train & X_test & y_train & y_test
        & Hsplit & _ & _ & HnXtr & HnXte & Hnytr & Hnyte); [assumption|lia|].
  pose proof (n_train_of_floor (length X)) as Hfloor.
  destruct (cluster_cells_three X_train X_test y_train y_test Hnytr Hnyte)
    as (d & Hrun & HXtr & HXte & Hy_tr & Hy_te).
  exists d. split.
  - unfold melting_cells. rewrite Hsplit. cbn [mbind result_bind].
    destruct (Nat.ltb_spec (length X_train) n_clusters) as [Hfew|_];
      [unfold n_clusters in Hfew; lia|assumption].
  - destruct (three_selected_partition (predict X_train) X_train y_train
                (X_train_cluster d) (y_train_cluster d))
      as (_ & _ & HsumX & Hsumy);
      [apply predict_length|apply predict_range|assumption|assumption|].
    destruct (three_selected_partition (predict X_test) X_test y_test
                (X_test_cluster d) (y_test_cluster d))
      as (_ & _ & HsumXt & Hsumyt);
      [apply predict_length|apply predict_range|assumption|assumption|].
    repeat split; congruence.
Qed.

Lemma split_then_clusters_witness :
  exists d, melting_cells (H := demo_shuffle) [1; 2; 3; 4; 5] [10; 20; 30; 40; 50]
            = Ok d
    /\ sum_list (rows_in (X_train_cluster d) <$> seq 0 n_clusters) = n_train_of 5
    /\ sum_list (rows_in (y_train_cluster d) <$> seq 0 n_clusters) = n_train_of 5
    /\ sum_list (rows_in (X_test_cluster d) <$> seq 0 n_clusters) = 5 - n_train_of 5
    /\ sum_list (rows_in (y_test_cluster d) <$> seq 0 n_clusters) = 5 - n_train_of 5.
Proof.
  apply (split_then_clusters demo_shuffle demo_shuffle_spec
           demo_kmeans demo_kmeans_labels [1; 2; 3; 4; 5] [10; 20; 30; 40; 50]).
  - reflexivity.
  - cbn. lia.
Defined.

(** ** The combined test errors *)

Section ErrorsProofs.
Context {Target : Type} (sub : Target -> Target -> Target).

Lemma np_subtract_same_length (a b : list Target) :
  length a = length b ->
  np_subtract sub a b = Ok (zip_with sub a b)
  /\ length (zip_with sub a b) = length a.
Proof.
  intros Hlen. unfold np_subtract. rewrite Hlen, Nat.eqb_refl.
  split; [reflexivity|]. rewrite length_zip_with. lia.
Qed.

Lemma errors_body_same_length (ytc ypc : gmap nat (list Target))
    (errors_test y_true y_pred : list Target) (i : nat) :
  ytc !! i = Some y_true -> ypc !! i = Some y_pred ->
  length y_pred = length y_true ->
  exists errors, errors_body sub ytc ypc errors_test i = Done (errors_test ++ errors)
                 /\ length errors = length y_true.
Proof.
  intros Hy Hp Hlen. unfold errors_body, dict_get. rewrite Hy, Hp.
  destruct (np_subtract_same_length y_true y_pred) as [-> Hn]; [lia|].
  by eexists.
Qed.

Lemma errors_loop_missing_key (ytc ypc : gmap nat (list Target)) (i : nat)
    (idx : list nat) :
  i ∈ idx -> ypc !! i = None ->
  forall acc errors, errors_loop sub ytc ypc acc idx <> Done errors.
Proof.
  intros Hin Hmiss. induction idx as [|j idx IH]; intros acc errors.
  - by apply elem_of_nil in Hin.
  - cbn [errors_loop].
    destruct (decide (j = i)) as [->|Hne].
    + unfold errors_body, dict_get. rewrite Hmiss.
      by destruct (ytc !! i).
    + apply elem_of_cons in Hin as [->|Hin]; [done|].
      destruct (errors_body sub ytc ypc acc j); [by apply IH|done|done].
Qed.

Lemma errors_cell_missing_key (ytc ypc : gmap nat (list Target)) (i : nat) :
  i < n_clusters -> ypc !! i = None ->
  forall errors, errors_cell sub ytc ypc <> Done errors.
Proof.
  intros Hi Hmiss errors. unfold errors_cell.
  apply (errors_loop_missing_key ytc ypc i); [|assumption].
  unfold range. rewrite elem_of_seq. lia.
Qed.

End ErrorsProofs.

(** X12. When the predictions stored for each cluster are as many as the
    test rows selected for it, the loop that gathers the test errors ends
    normally with exactly one error per test sample. *)
Theorem errors_cell_one_per_test_sample {Features Target : Type}
    (K : KMeans Features) (HK : KMeansLabels K) (sub : Target -> Target -> Target) :
  forall (X_train X_test : list Features) (y_train y_test : list Target)
         (d : cluster_dicts) (y_pred_test_cluster : gmap nat (list Target)),
    length y_train = length X_train ->
    length y_test = length X_test ->
    cluster_cells X_train X_test y_train y_test = Ok d ->
    (forall i, i < n_clusters ->
       exists y_pred, y_pred_test_cluster !! i = Some y_pred
                      /\ length y_pred = rows_in (X_test_cluster d) i) ->
    exists errors_test,
      errors_cell sub (y_test_cluster d) y_pred_test_cluster = Done errors_test
      /\ length errors_test = length y_test.
Proof.
  intros X_train X_test y_train y_test d ypc Hytr Hyte Hrun Hpred.
  destruct (cluster_cells_three X_train X_test y_train y_test Hytr Hyte)
    as (d' & Hrun' & _ & HXte & _ & Hy_te).
  rewrite Hrun in Hrun'. injection Hrun' as <-.
  pose proof (where_eq_from_total (predict X_test) (predict_range X_test) 0) as Htotal.
  fold (np_where_eq (predict X_test) 0) (np_where_eq (predict X_test) 1)
       (np_where_eq (predict X_test) 2) in Htotal.
  rewrite predict_length in Htotal.
  assert (Hkey : forall i, i < n_clusters ->
            exists y_true y_pred,
              y_test_cluster d !! i = Some y_true
              /\ ypc !! i = Some y_pred
              /\ length y_pred = length y_true
              /\ length y_true = length (np_where_eq (predict X_test) i)).
  { intros i Hi.
    destruct (three_selected_keys _ _ _ i Hy_te) as [_ Hk].
    destruct (Hk Hi) as (y_true & Hy & _ & Hny).
    destruct (three_selected_keys _ _ _ i HXte) as [_ Hk'].
    destruct (Hk' Hi) as (xs & Hx & _ & Hnx).
    destruct (Hpred i Hi) as (y_pred & Hp & Hnp).
    unfold rows_in in Hnp. rewrite Hx in Hnp.
    exists y_true, y_pred. repeat split; [assumption|assumption|lia|assumption]. }
  unfold errors_cell. change (range 0 n_clusters) with [0; 1; 2].
  destruct (Hkey 0) as (t0 & p0 & Ht0 & Hp0 & Hl0 & Hn0); [unfold n_clusters; lia|].
  destruct (Hkey 1) as (t1 & p1 & Ht1 & Hp1 & Hl1 & Hn1); [unfold n_clusters; lia|].
  destruct (Hkey 2) as (t2 & p2 & Ht2 & Hp2 & Hl2 & Hn2); [unfold n_clusters; lia|].
  cbn [errors_loop].
  destruct (errors_body_same_length sub _ _ [] _ _ 0 Ht0 Hp0 Hl0) as (e0 & -> & He0).
  destruct (errors_body_same_length sub _ _ ([] ++ e0) _ _ 1 Ht1 Hp1 Hl1)
    as (e1 & -> & He1).
  destruct (errors_body_same_length sub _ _ (([] ++ e0) ++ e1) _ _ 2 Ht2 Hp2 Hl2)
    as (e2 & -> & He2).
  eexists. split; [reflexivity|].
  rewrite !length_app. cbn [length]. lia.
Qed.

Lemma errors_cell_one_per_test_sample_witness :
  exists d errors_test,
    cluster_cells [0; 1; 2; 3; 4; 5; 6] [7; 8; 9]
      [10; 11; 12; 13; 14; 15; 16] [17; 18; 19] = Ok d
    /\ errors_cell Nat.sub (y_test_cluster d)
         (<[2 := [10]]> (<[1 := [20]]> (<[0 := [12]]> ∅))) = Done errors_test
    /\ length errors_test = 3.
Proof.
  destruct (cluster_cells_three (HK := demo_kmeans_labels)
              [0; 1; 2; 3; 4; 5; 6] [7; 8; 9] [10; 11; 12; 13; 14; 15; 16] [17; 18; 19]
              eq_refl eq_refl) as (d & Hrun & _ & HXte & _).
  exists d.
  destruct (errors_cell_one_per_test_sample demo_kmeans demo_kmeans_labels Nat.sub
              [0; 1; 2; 3; 4; 5; 6] [7; 8; 9] [10; 11; 12; 13; 14; 15; 16] [17; 18; 19]
              d (<[2 := [10]]> (<[1 := [20]]> (<[0 := [12]]> ∅)))
              eq_refl eq_refl Hrun) as (errors_test & Hcell & Hlen).
  - intros i Hi.
    destruct (three_selected_keys _ _ _ i HXte) as [_ Hk].
    destruct (Hk Hi) as (xs & Hx & _ & Hnx).
    unfold rows_in. rewrite Hx, Hnx. unfold n_clusters in Hi.
    destruct i as [|[|[|i]]]; [| | |lia]; eexists; split; reflexivity.
  - exists errors_test. by repeat split.
Defined.

(** X13. The loop that gathers the test errors cannot end normally while
    the dictionary of predictions lacks one of the keys 0, 1, 2; with the
    dictionary as the notebook creates it, empty, the first iteration
    raises [KeyError(0)], whatever the dictionary of targets holds. *)
Theorem errors_cell_needs_predictions {Target : Type} (sub : Target -> Target -> Target) :
  forall (y_test_cluster y_pred_test_cluster : gmap nat (list Target)) (i : nat),
    (i < n_clusters -> y_pred_test_cluster !! i = None ->
     forall errors_test,
       errors_cell sub y_test_cluster y_pred_test_cluster <> Done errors_test)
    /\ errors_cell sub y_test_cluster ∅ = KeyError 0.
Proof.
  intros ytc ypc i. split.
  - apply errors_cell_missing_key.
  - unfold errors_cell. change (range 0 n_clusters) with [0; 1; 2].
    cbn [errors_loop]. unfold errors_body, dict_get.
    by destruct (ytc !! 0).
Qed.

Lemma errors_cell_needs_predictions_witness :
  (forall errors_test,
     errors_cell Nat.sub (<[0 := [17]]> ∅) (<[0 := [12]]> ∅) <> Done errors_test)
  /\ errors_cell Nat.sub (<[0 := [17]]> ∅) ∅ = KeyError 0
  /\ errors_cell Nat.sub (∅ : gmap nat (list nat)) ∅ = KeyError 0.
Proof.
  split; [|split].
  - apply (errors_cell_needs_predictions Nat.sub
             (<[0 := [17]]> ∅) (<[0 := [12]]> ∅) 1); [unfold n_clusters; lia|].
    reflexivity.
  - apply (errors_cell_needs_predictions Nat.sub (<[0 := [17]]> ∅) ∅ 0).
  - apply (errors_cell_needs_predictions Nat.sub ∅ ∅ 0).
Defined.

(** ** Targets that do not pair with the rows *)

Lemma take_rows_inv {A : Type} (a : list A) (idx : list nat) :
  match take_rows a idx with
  | Ok _ => Forall (fun j => j < length a) idx
  | Raise e => e = IndexError
  end.
Proof.
  induction idx as [|j idx IH]; cbn [take_rows]; [constructor|].
  destruct (a !! j) as [x|] eqn:Hj; [|reflexivity].
  destruct (take_rows a idx) as [xs|e]; cbn; [|assumption].
  constructor; [by eapply lookup_lt_Some|assumption].
Qed.

Section ShortTargets.
Context {Features Target : Type}.
Variables (X_train X_test : list Features) (y_train y_test : list Target).
Variables (train_labels test_labels : list nat).

(** An iteration of the selection loop raises nothing but [IndexError], and
    when it ends normally every selected position exists in the targets. *)
Lemma cluster_body_inv (d : cluster_dicts) (i : nat) :
  match cluster_body X_train X_test y_train y_test train_labels test_labels d i with
  | Ok _ => Forall (fun j => j < length y_train) (np_where_eq train_labels i)
            /\ Forall (fun j => j < length y_test) (np_where_eq test_labels i)
  | Raise e => e = IndexError
  end.
Proof.
  unfold cluster_body.
  pose proof (take_rows_inv X_train (np_where_eq train_labels i)) as H1.
  pose proof (take_rows_inv X_test (np_where_eq test_labels i)) as H2.
  pose proof (take_rows_inv y_train (np_where_eq train_labels i)) as H3.
  pose proof (take_rows_inv y_test (np_where_eq test_labels i)) as H4.
  destruct (take_rows X_train _); cbn; [|assumption].
  destruct (take_rows X_test _); cbn; [|assumption].
  destruct (take_rows y_train _); cbn; [|assumption].
  destruct (take_rows y_test _); cbn; [|assumption].
  by split.
Qed.

Lemma cluster_loop_inv :
  match cluster_loop X_train X_test y_train y_test train_labels test_labels with
  | Ok _ => forall i, i < n_clusters ->
              Forall (fun j => j < length y_train) (np_where_eq train_labels i)
              /\ Forall (fun j => j < length y_test) (np_where_eq test_labels i)
  | Raise e => e = IndexError
  end.
Proof.
  unfold cluster_loop. change (range 0 n_clusters) with [0; 1; 2].
  cbn [for_each].
  pose proof (cluster_body_inv empty_dicts 0) as H0.
  destruct (cluster_body _ _ _ _ _ _ empty_dicts 0) as [d0|]; cbn; [|assumption].
  pose proof (cluster_body_inv d0 1) as H1.
  destruct (cluster_body _ _ _ _ _ _ d0 1) as [d1|]; cbn; [|assumption].
  pose proof (cluster_body_inv d1 2) as H2.
  destruct (cluster_body _ _ _ _ _ _ d1 2) as [d2|]; cbn; [|assumption].
  intros i Hi. unfold n_clusters in Hi.
  destruct i as [|[|[|i]]]; [assumption|assumption|assumption|lia].
Qed.

End ShortTargets.

(** X14. When the targets are fewer than the rows they should pair with, on
    the training or on the test side, the selection loop does not end
    normally: it raises [IndexError]. *)
Theorem cluster_cells_short_targets {Features Target : Type}
    (K : KMeans Features) (HK : KMeansLabels K) :
  forall (X_train X_test : list Features) (y_train y_test : list Target),
    length y_train < length X_train \/ length y_test < length X_test ->
    cluster_cells X_train X_test y_train y_test = Raise IndexError.
Proof.
  intros X_train X_test y_train y_test Hshort. unfold cluster_cells.
  pose proof (cluster_loop_inv X_train X_test y_train y_test
                (predict X_train) (predict X_test)) as Hinv.
  destruct (cluster_loop _ _ _ _ _ _) as [d|e]; [exfalso|by rewrite Hinv].
  assert (Hlabelled : forall (X : list Features) (y : list Target),
            length y < length X ->
            exists i, i < n_clusters /\ length y ∈ np_where_eq (predict X) i).
  { intros X y Hlt.
    destruct (lookup_lt_is_Some_2 (predict X) (length y)) as [i Hi];
      [by rewrite predict_length|].
    exists i. split; [|by apply elem_of_np_where_eq].
    pose proof (predict_range X) as Hrange.
    eapply Forall_lookup_1 in Hrange; [|exact Hi]. exact Hrange. }
  destruct Hshort as [Hlt|Hlt].
  - destruct (Hlabelled X_train y_train Hlt) as (i & Hi & Hin).
    destruct (Hinv i Hi) as [Hbound _].
    rewrite Forall_forall in Hbound. apply list_elem_of_In in Hin.
    specialize (Hbound _ Hin). lia.
  - destruct (Hlabelled X_test y_test Hlt) as (i & Hi & Hin).
    destruct (Hinv i Hi) as [_ Hbound].
    rewrite Forall_forall in Hbound. apply list_elem_of_In in Hin.
    specialize (Hbound _ Hin). lia.
Qed.

Lemma cluster_cells_short_targets_witness :
  cluster_cells [0; 1; 2; 3] [7; 8] [10; 11; 12] [17; 18] = Raise IndexError.
Proof.
  apply (cluster_cells_short_targets demo_kmeans demo_kmeans_labels
           [0; 1; 2; 3] [7; 8] [10; 11; 12] [17; 18]).
  left. cbn. lia.
Defined.
